(** * Partition mapping and run storage of the orchestration core

    A shallow embedding of
    [dagster/_core/definitions/time_window_partition_mapping.py]
    (the [TimeWindowPartitionMapping] class and [_offsetted_datetime]) and of
    the run-storage contract exercised by
    [dagster_tests/storage_tests/utils/run_storage.py]. *)

From Stdlib Require Import ZArith Lia Bool Ascii String List.
From stdpp Require Import base decidable option list sorting strings gmap sets.

Local Open Scope Z_scope.

(** ** Time windows *)

(** A [datetime] is an instant, counted in seconds from the Unix epoch; all
    the datetimes one mapping call compares live in one timezone (the call
    raises otherwise), so comparing instants is comparing datetimes. *)
Definition datetime : Type := Z.

Definition timestamp (dt : datetime) : Z := dt.

Record TimeWindow : Type := mkTimeWindow { start : datetime; end_ : datetime }.

Global Instance TimeWindow_eq_dec : EqDecision TimeWindow.
Proof. solve_decision. Defined.

(** ** Exceptions and fallible results *)

(** The exceptions the embedded code can raise.  [AttributeError] is what
    Python raises for [None.start]; [ValueError] is what [strptime] raises on
    a key that does not parse.  [DagsterInvalidInvocationError] carries the
    time windows its message prints. *)
Inductive error : Type :=
  | DagsterInvalidDefinitionError (msg : string)
  | DagsterInvalidInvocationError (time_windows : list TimeWindow)
  | CheckError (msg : string)
  | AttributeError
  | ValueError
  | DagsterRunAlreadyExists
  | DagsterRunNotFoundError
  | DagsterSnapshotDoesNotExist
  | RunGroupNotFoundError.

Inductive result (A : Type) : Type :=
  | Ok (a : A)
  | Raise (e : error).
Arguments Ok {A} a.
Arguments Raise {A} e.

Global Instance result_ret : MRet result := fun A a => Ok a.

Global Instance result_bind : MBind result := fun A B k r =>
  match r with
  | Ok a => k a
  | Raise e => Raise e
  end.

Definition is_ok {A : Type} (r : result A) : bool :=
  match r with Ok _ => true | Raise _ => false end.

(** ** The operations of a time-window partitions definition

    [time_window_partitions.py] is not among the sources; the mapping code is
    embedded over the interface it calls.  [start_time_for_partition_key] and
    [end_time_for_partition_key] parse a key with [strptime]: [None] stands
    for the [ValueError] of a key that does not parse.
    [get_prev_partition_window] and
    [get_next_partition_window] are called without a [current_time] and so see
    the wall clock of the implementation; [get_first_partition_window] and
    [get_last_partition_window] take the optional [current_time]. *)
Class TimeWindowPartitionsDefinition (D : Type) : Type := {
  def_eq_dec :: EqDecision D;
  cron_schedule : D -> string;
  timezone : D -> string;
  get_partition_key_for_timestamp : D -> Z -> bool -> string;
  start_time_for_partition_key : D -> string -> option datetime;
  end_time_for_partition_key : D -> string -> option datetime;
  get_first_partition_window : D -> option datetime -> option TimeWindow;
  get_last_partition_window : D -> option datetime -> option TimeWindow;
  get_prev_partition_window : D -> datetime -> option TimeWindow;
  get_next_partition_window : D -> datetime -> option TimeWindow;
  get_partition_keys_in_time_window : D -> TimeWindow -> list string
}.

Record TimeWindowPartitionsSubset (D : Type) : Type := mkSubset {
  partitions_def : D;
  num_partitions : nat;
  included_time_windows : list TimeWindow
}.
Arguments mkSubset {D} _ _ _.
Arguments partitions_def {D} _.
Arguments num_partitions {D} _.
Arguments included_time_windows {D} _.

(** What the [isinstance] checks of the public methods tell apart. *)
Inductive PartitionsDefinition (D : Type) : Type :=
  | TimeWindowDef (d : D)
  | OtherPartitionsDefinition.
Arguments TimeWindowDef {D} d.
Arguments OtherPartitionsDefinition {D}.

Inductive PartitionsSubset (D : Type) : Type :=
  | TimeWindowSubset (s : TimeWindowPartitionsSubset D)
  | OtherPartitionsSubset.
Arguments TimeWindowSubset {D} s.
Arguments OtherPartitionsSubset {D}.

(** ** [TimeWindowPartitionMapping] *)

Record TimeWindowPartitionMapping : Type := mkMapping {
  start_offset : Z;
  end_offset : Z
}.

Section Mapping.
Context {D : Type} `{TimeWindowPartitionsDefinition D}.

(** [for _ in range(abs(offset))]: [n] counts the iterations left. *)
Fixpoint offsetted_loop (partitions_def : D) (n : nat) (offset : Z)
    (dt : datetime) : option datetime :=
  match n with
  | O => Some dt
  | S n' =>
      if offset <? 0 then
        match get_prev_partition_window partitions_def dt with
        | None => None
        | Some prev_window =>
            offsetted_loop partitions_def n' offset (start prev_window)
        end
      else
        match get_next_partition_window partitions_def dt with
        | None => None
        | Some next_window =>
            offsetted_loop partitions_def n' offset (end_ next_window)
        end
  end.

Definition _offsetted_datetime (partitions_def : D) (dt : datetime)
    (offset : Z) : option datetime :=
  offsetted_loop partitions_def (Z.abs_nat offset) offset dt.

(** Python truthiness of an [Optional[str]]: [None] and the empty string
    are false. *)
Definition truthy (k : option string) : bool :=
  match k with
  | Some s => negb (String.eqb s "")
  | None => false
  end.

Definition is_not_None {A : Type} (o : option A) : bool :=
  match o with Some _ => true | None => false end.

(** The [ValueError] of a partition key that [strptime] rejects. *)
Definition parsed (o : option datetime) : result datetime :=
  match o with
  | Some dt => Ok dt
  | None => Raise ValueError
  end.

(** [cast(TimeWindow, w).start] and [.end]: attribute access on [None]
    raises. *)
Definition window_attr (w : option TimeWindow) (f : TimeWindow -> datetime)
    : result datetime :=
  match w with
  | Some tw => Ok (f tw)
  | None => Raise AttributeError
  end.

(** The body of the first loop of [_map_partitions] for one source window:
    the target window it appends, if any. *)
Definition map_time_window (from_partitions_def to_partitions_def : D)
    (start_offset end_offset : Z) (from_partition_time_window : TimeWindow)
    : result (option TimeWindow) :=
  let from_start_dt := start from_partition_time_window in
  let from_end_dt := end_ from_partition_time_window in
  let offsetted_start_dt :=
    _offsetted_datetime from_partitions_def from_start_dt start_offset in
  let offsetted_end_dt :=
    _offsetted_datetime from_partitions_def from_end_dt end_offset in
  let to_start_partition_key :=
    match offsetted_start_dt with
    | Some dt =>
        Some (get_partition_key_for_timestamp to_partitions_def
                (timestamp dt) false)
    | None => None
    end in
  let to_end_partition_key :=
    match offsetted_end_dt with
    | Some dt =>
        Some (get_partition_key_for_timestamp to_partitions_def
                (timestamp dt) true)
    | None => None
    end in
  if is_not_None to_start_partition_key || is_not_None to_end_partition_key
  then
    window_start ←
      (if truthy to_start_partition_key then
         parsed (start_time_for_partition_key to_partitions_def
                   (default "" to_start_partition_key))
       else
         window_attr (get_first_partition_window to_partitions_def None)
           start);
    window_end ←
      (if truthy to_end_partition_key then
         parsed (end_time_for_partition_key to_partitions_def
                   (default "" to_end_partition_key))
       else
         window_attr (get_last_partition_window to_partitions_def None)
           end_);
    if window_start <? window_end
    then Ok (Some (mkTimeWindow window_start window_end))
    else Ok None
  else Ok None.

(** The first loop of [_map_partitions]: the list [time_windows]. *)
Fixpoint map_time_windows (from_partitions_def to_partitions_def : D)
    (start_offset end_offset : Z) (windows : list TimeWindow)
    : result (list TimeWindow) :=
  match windows with
  | [] => Ok []
  | from_partition_time_window :: rest =>
      appended ← map_time_window from_partitions_def to_partitions_def
                   start_offset end_offset from_partition_time_window;
      time_windows ← map_time_windows from_partitions_def to_partitions_def
                       start_offset end_offset rest;
      Ok (match appended with
          | Some time_window => time_window :: time_windows
          | None => time_windows
          end)
  end.

(** The body of the second loop: what one window contributes to
    [filtered_time_windows]. *)
Definition clip_time_window (first_window last_window : option TimeWindow)
    (time_window : TimeWindow) : option TimeWindow :=
  match first_window, last_window with
  | Some first_window, Some last_window =>
      if (start time_window <=? start last_window)
         && (end_ time_window >=? end_ first_window)
      then
        let window_end := Z.min (end_ time_window) (end_ last_window) in
        let window_start := Z.max (start time_window) (start first_window) in
        Some (mkTimeWindow window_start window_end)
      else None
  | _, _ => None
  end.

Definition filter_time_windows (first_window last_window : option TimeWindow)
    (time_windows : list TimeWindow) : list TimeWindow :=
  omap (clip_time_window first_window last_window) time_windows.

Definition cron_schedule_message (from_partitions_def to_partitions_def : D)
    : string :=
  ("Can't use the start_offset or end_offset parameters of"
   +:+ " TimeWindowPartitionMapping when the cron schedule of the upstream"
   +:+ " PartitionsDefinition is different than the cron schedule of the downstream"
   +:+ " one. Attempted to map from cron schedule '"
   +:+ cron_schedule from_partitions_def +:+ "' "
   +:+ "to cron schedule '" +:+ cron_schedule to_partitions_def +:+ "'.")%string.

Definition _map_partitions (from_partitions_def to_partitions_def : D)
    (from_partitions_subset : TimeWindowPartitionsSubset D)
    (start_offset end_offset : Z) (raise_on_non_existent_partition : bool)
    (current_time : option datetime)
    : result (TimeWindowPartitionsSubset D) :=
  if (negb (start_offset =? 0) || negb (end_offset =? 0))
     && negb (String.eqb (cron_schedule from_partitions_def)
                (cron_schedule to_partitions_def))
  then
    Raise (DagsterInvalidDefinitionError
             (cron_schedule_message from_partitions_def to_partitions_def))
  else if negb (String.eqb (timezone to_partitions_def)
                  (timezone from_partitions_def))
  then Raise (DagsterInvalidDefinitionError "Timezones don't match")
  else if bool_decide (from_partitions_def = to_partitions_def)
          && (start_offset =? 0) && (end_offset =? 0)
  then Ok from_partitions_subset
  else
    time_windows ← map_time_windows from_partitions_def to_partitions_def
                     start_offset end_offset
                     (included_time_windows from_partitions_subset);
    let first_window :=
      get_first_partition_window to_partitions_def current_time in
    let last_window :=
      get_last_partition_window to_partitions_def current_time in
    let filtered_time_windows :=
      filter_time_windows first_window last_window time_windows in
    if raise_on_non_existent_partition
       && negb (bool_decide (filtered_time_windows = time_windows))
    then Raise (DagsterInvalidInvocationError time_windows)
    else
      Ok (mkSubset to_partitions_def
            (sum_list
               (map (fun time_window =>
                       length (get_partition_keys_in_time_window
                                 to_partitions_def time_window))
                  filtered_time_windows))
            filtered_time_windows).

Definition get_upstream_partitions_for_partitions
    (self : TimeWindowPartitionMapping)
    (downstream_partitions_subset : option (PartitionsSubset D))
    (upstream_partitions_def : PartitionsDefinition D)
    (current_time : option datetime)
    : result (TimeWindowPartitionsSubset D) :=
  match downstream_partitions_subset with
  | Some (TimeWindowSubset subset) =>
      match upstream_partitions_def with
      | TimeWindowDef upstream_def =>
          _map_partitions (partitions_def subset) upstream_def subset
            (start_offset self) (end_offset self) true current_time
      | OtherPartitionsDefinition =>
          Raise (CheckError
            "upstream_partitions_def must be a TimeWindowPartitionsDefinition")
      end
  | _ =>
      Raise (CheckError
        "downstream_partitions_subset must be a TimeWindowPartitionsSubset")
  end.

Definition get_downstream_partitions_for_partitions
    (self : TimeWindowPartitionMapping)
    (upstream_partitions_subset : PartitionsSubset D)
    (downstream_partitions_def : option (PartitionsDefinition D))
    (current_time : option datetime)
    : result (TimeWindowPartitionsSubset D) :=
  match downstream_partitions_def with
  | Some (TimeWindowDef downstream_def) =>
      match upstream_partitions_subset with
      | TimeWindowSubset subset =>
          _map_partitions (partitions_def subset) downstream_def subset
            (- start_offset self) (- end_offset self) false current_time
      | OtherPartitionsSubset =>
          Raise (CheckError
            "upstream_partitions_subset must be a TimeWindowPartitionsSubset")
      end
  | _ =>
      Raise (CheckError
        "downstream_partitions_def must be a TimeWindowPartitionsDefinitions")
  end.
End Mapping.

(** ** A model of hourly and daily partitions definitions *)

(** Modelled from the spec: [time_window_partitions.py]
    ([TimeWindowPartitionsDefinition] and its hourly and daily subclasses) is
    not among the sources.  The spec describes a definition as generating
    "an ordered, gapless sequence of TimeWindow{start, end} according to a
    cron schedule and IANA timezone, with an optional start boundary" and
    open-ended at "now", with partition keys that are "deterministic string
    encodings of window start".  The model below covers the hourly and the
    daily schedule in UTC, where the cron ticks are the multiples of the
    period, and encodes a window start with the formats of the mapping's
    docstring (["2022-07-04"]) and of the hourly definition. *)

Module Calendar.

(** Days since 1970-01-01 to (year, month, day) of the proleptic Gregorian
    calendar, and back. *)
Definition civil_from_days (z : Z) : Z * Z * Z :=
  let z := z + 719468 in
  let era := z / 146097 in
  let doe := z - era * 146097 in
  let yoe := (doe - doe / 1460 + doe / 36524 - doe / 146096) / 365 in
  let y := yoe + era * 400 in
  let doy := doe - (365 * yoe + yoe / 4 - yoe / 100) in
  let mp := (5 * doy + 2) / 153 in
  let d := doy - (153 * mp + 2) / 5 + 1 in
  let m := if mp <? 10 then mp + 3 else mp - 9 in
  (if m <=? 2 then y + 1 else y, m, d).

Definition days_from_civil (y m d : Z) : Z :=
  let y := if m <=? 2 then y - 1 else y in
  let era := y / 400 in
  let yoe := y - era * 400 in
  let doy := (153 * (if m >? 2 then m - 3 else m + 9) + 2) / 5 + d - 1 in
  let doe := yoe * 365 + yoe / 4 - yoe / 100 + doy in
  era * 146097 + doe - 719468.

Definition digit_char (n : Z) : ascii := ascii_of_N (48 + Z.to_N n).

Definition pad2 (n : Z) : string :=
  String (digit_char (n / 10 mod 10)) (String (digit_char (n mod 10)) "").

Definition pad4 (n : Z) : string :=
  (pad2 (n / 100) +:+ pad2 (n mod 100))%string.

Definition digit_value (c : ascii) : option Z :=
  let n := Z.of_N (N_of_ascii c) in
  if (48 <=? n) && (n <=? 57) then Some (n - 48) else None.

Fixpoint parse_digits (acc : Z) (s : string) : option Z :=
  match s with
  | EmptyString => Some acc
  | String c rest =>
      match digit_value c with
      | Some v => parse_digits (10 * acc + v) rest
      | None => None
      end
  end.

Definition field (pos len : nat) (s : string) : option Z :=
  parse_digits 0 (substring pos len s).

(** ["%Y-%m-%d"] *)
Definition format_date (days : Z) : string :=
  let '(y, m, d) := civil_from_days days in
  (pad4 y +:+ "-" +:+ pad2 m +:+ "-" +:+ pad2 d)%string.

(** ["%H:%M"] of a number of seconds into the day *)
Definition format_time (secs : Z) : string :=
  (pad2 (secs / 3600) +:+ ":" +:+ pad2 (secs / 60 mod 60))%string.

Definition parse_date (s : string) : option Z :=
  match field 0 4 s, field 5 2 s, field 8 2 s with
  | Some y, Some m, Some d => Some (days_from_civil y m d)
  | _, _, _ => None
  end.

Definition parse_time (s : string) : option Z :=
  match field 11 2 s, field 14 2 s with
  | Some h, Some mi => Some (h * 3600 + mi * 60)
  | _, _ => None
  end.

End Calendar.

Inductive ScheduleType : Type := HOURLY | DAILY.

Global Instance ScheduleType_eq_dec : EqDecision ScheduleType.
Proof. solve_decision. Defined.

(** The length of one partition, in seconds. *)
Definition period (s : ScheduleType) : Z :=
  match s with HOURLY => 3600 | DAILY => 86400 end.

Definition cron_of (s : ScheduleType) : string :=
  match s with HOURLY => "0 * * * *" | DAILY => "0 0 * * *" end.

(** Modelled from the spec: the key of a window, "a deterministic string
    encoding of window start"; [strftime] with the definition's format,
    ["%Y-%m-%d-%H:%M"] for hourly and ["%Y-%m-%d"] for daily definitions. *)
Definition strftime (s : ScheduleType) (t : datetime) : string :=
  match s with
  | DAILY => Calendar.format_date (t / 86400)
  | HOURLY =>
      (Calendar.format_date (t / 86400) +:+ "-"
       +:+ Calendar.format_time (t mod 86400))%string
  end.

(** Modelled from the spec: the decoding of a key, [strptime] with the
    definition's format; [None] for a key that is not the encoding of an
    instant. *)
Definition strptime (s : ScheduleType) (key : string) : option datetime :=
  let parsed :=
    match s with
    | DAILY => days ← Calendar.parse_date key; Some (days * 86400)
    | HOURLY =>
        days ← Calendar.parse_date key;
        secs ← Calendar.parse_time key;
        Some (days * 86400 + secs)
    end in
  match parsed with
  | Some t => if String.eqb (strftime s t) key then Some t else None
  | None => None
  end.

Record CronPartitionsDefinition : Type := mkCronDef {
  schedule_type : ScheduleType;
  start_date : datetime;
  tz : string
}.

Global Instance CronPartitionsDefinition_eq_dec :
  EqDecision CronPartitionsDefinition.
Proof. solve_decision. Defined.

(** The first tick at or after [t], and the last tick strictly before it. *)
Definition tick_ceil (p t : Z) : Z := (t + p - 1) / p * p.
Definition tick_before (p t : Z) : Z := tick_ceil p t - p.

Section CronModel.
(** The wall clock the definition's operations read when they are given no
    [current_time]. *)
Variable now : datetime.

(** Modelled from the spec: [get_first_partition_window], the first window
    the definition generates, at the first tick at or after its start
    boundary; none while that window is not complete at [current_time]. *)
Definition first_window (d : CronPartitionsDefinition)
    (current_time : option datetime) : option TimeWindow :=
  let p := period (schedule_type d) in
  let s := tick_ceil p (start_date d) in
  if s + p <=? default now current_time
  then Some (mkTimeWindow s (s + p))
  else None.

(** Modelled from the spec: [get_last_partition_window], the last window
    that is complete at [current_time] ("open-ended = generate up to now"). *)
Definition last_window (d : CronPartitionsDefinition)
    (current_time : option datetime) : option TimeWindow :=
  let p := period (schedule_type d) in
  match first_window d current_time with
  | None => None
  | Some _ =>
      let e := default now current_time / p * p in
      Some (mkTimeWindow (e - p) e)
  end.

(** Modelled from the spec: [get_prev_partition_window], the window before
    [start_dt] in the definition's sequence; none before the first window
    ("walking beyond the first/last generatable partition yields
    unbounded"). *)
Definition prev_window (d : CronPartitionsDefinition) (start_dt : datetime)
    : option TimeWindow :=
  let p := period (schedule_type d) in
  let t := tick_before p start_dt in
  match first_window d None with
  | None => None
  | Some fw =>
      if t <? start fw then None else Some (mkTimeWindow t (t + p))
  end.

(** Modelled from the spec: [get_next_partition_window], the window that
    starts at [end_dt] in the definition's sequence; none past the last
    window. *)
Definition next_window (d : CronPartitionsDefinition) (end_dt : datetime)
    : option TimeWindow :=
  let p := period (schedule_type d) in
  let t := tick_ceil p end_dt in
  match last_window d None with
  | None => None
  | Some lw =>
      if t >=? end_ lw then None else Some (mkTimeWindow t (t + p))
  end.

(** Modelled from the spec: [get_partition_key_for_timestamp], the key of
    "the target partition containing or starting at this instant" when the
    end is open, and of the partition that ends at or contains it when
    [end_closed]. *)
Definition key_for_timestamp (d : CronPartitionsDefinition) (ts : Z)
    (end_closed : bool) : string :=
  let p := period (schedule_type d) in
  let prev := tick_before p ts in
  let prev_next := prev + p in
  if end_closed || (prev_next >? ts)
  then strftime (schedule_type d) prev
  else strftime (schedule_type d) prev_next.

(** Modelled from the spec: [get_partition_keys_in_time_window], the keys of
    the generatable windows inside [w]. *)
Definition keys_in_time_window (d : CronPartitionsDefinition)
    (w : TimeWindow) : list string :=
  let p := period (schedule_type d) in
  let s := tick_ceil p (start w) in
  map (fun i => strftime (schedule_type d) (s + Z.of_nat i * p))
    (seq 0 (Z.to_nat ((end_ w - s) / p))).

Global Instance cron_definition :
  TimeWindowPartitionsDefinition CronPartitionsDefinition | 100 := {|
  cron_schedule d := cron_of (schedule_type d);
  timezone := tz;
  get_partition_key_for_timestamp := key_for_timestamp;
  start_time_for_partition_key d key := strptime (schedule_type d) key;
  end_time_for_partition_key d key :=
    t ← strptime (schedule_type d) key;
    Some (t + period (schedule_type d));
  get_first_partition_window := first_window;
  get_last_partition_window := last_window;
  get_prev_partition_window := prev_window;
  get_next_partition_window := next_window;
  get_partition_keys_in_time_window := keys_in_time_window
|}.
End CronModel.

(** The partition keys a subset covers. *)
Definition get_partition_keys {D : Type} `{TimeWindowPartitionsDefinition D}
    (s : TimeWindowPartitionsSubset D) : list string :=
  concat (map (get_partition_keys_in_time_window (partitions_def s))
            (included_time_windows s)).

Definition daily (start : string) : CronPartitionsDefinition :=
  mkCronDef DAILY
    (default 0 (strptime DAILY start)) "UTC".


(** ** The run store *)

(** Modelled from the spec: the run storage ([RunStorage], [SqlRunStorage]
    under [dagster/_core/storage/runs]) is not among the sources; only its
    test-suite [storage_tests/utils/run_storage.py] is.  The operations below
    follow the contract of the spec's section 4.2 and the persisted layout of
    its section 6 ("a runs table keyed by run_id with a secondary index on
    (tag-key, tag-value) pairs").  Where the prose and the assertions of the
    test-suite differ, the model follows the test-suite: the index row of a
    run's key is rewritten when [add_run_tags] overwrites the key
    ([test_add_run_tags]), and an unknown run makes [get_run_group] raise
    [DagsterRunNotFoundError] ([test_fetch_run_group_not_found]).  The
    [value_prefix] and [limit] arguments of [get_run_tags], bucketing,
    heartbeats and backfills are left out. *)

Inductive DagsterRunStatus : Type :=
  | QUEUED | NOT_STARTED | STARTED | SUCCESS | FAILURE | CANCELED.

Global Instance DagsterRunStatus_eq_dec : EqDecision DagsterRunStatus.
Proof. solve_decision. Defined.

Inductive DagsterEventType : Type :=
  | PIPELINE_START | PIPELINE_SUCCESS | PIPELINE_FAILURE | PIPELINE_CANCELED
  | STEP_EVENT.

Record DagsterEvent : Type := mkEvent {
  message : string;
  event_type_value : DagsterEventType;
  event_job_name : string
}.

Record DagsterRun : Type := mkRun {
  job_name : string;
  run_id : string;
  tags : gmap string string;
  status : DagsterRunStatus;
  root_run_id : option string;
  parent_run_id : option string;
  job_snapshot_id : option string
}.

Record RunRecord : Type := mkRecord {
  dagster_run : DagsterRun;
  create_timestamp : Z;
  update_timestamp : Z
}.

(** One row of the tag index. *)
Record TagRow : Type := mkTagRow {
  row_run_id : string;
  row_key : string;
  row_value : string
}.

Global Instance TagRow_eq_dec : EqDecision TagRow.
Proof. solve_decision. Defined.

(** [runs] is kept in the default order of [get_runs]: most recently created
    first.  [clock] is the time the store stamps records with. *)
Record RunStorage : Type := mkStorage {
  runs : list RunRecord;
  run_tags : list TagRow;
  job_snapshots : gset string;
  clock : Z
}.

Definition empty_storage : RunStorage := mkStorage [] [] ∅ 0.

(** [TestRunStorage.build_run] *)
Definition build_run (run_id job_name : string) (tags : gmap string string)
    (status : DagsterRunStatus) (parent_run_id root_run_id : option string)
    : DagsterRun :=
  mkRun job_name run_id tags status root_run_id parent_run_id None.

Definition record_id (r : RunRecord) : string := run_id (dagster_run r).

Definition get_run_by_id (st : RunStorage) (id : string) : option RunRecord :=
  List.find (fun r => String.eqb (record_id r) id) (runs st).

Definition has_run (st : RunStorage) (id : string) : bool :=
  is_not_None (get_run_by_id st id).

Definition tag_rows (id : string) (tags : gmap string string) : list TagRow :=
  map (fun kv => mkTagRow id kv.1 kv.2) (map_to_list tags).

Definition advance (st : RunStorage) (seconds : Z) : RunStorage :=
  mkStorage (runs st) (run_tags st) (job_snapshots st)
    (clock st + Z.max 0 seconds).

Definition add_job_snapshot (st : RunStorage) (snapshot_id : string)
    : RunStorage :=
  mkStorage (runs st) (run_tags st) ({[ snapshot_id ]} ∪ job_snapshots st)
    (clock st).

(** Modelled from the spec: [add_run] "fails with RunAlreadyExists if run_id
    present; fails with SnapshotMissing if the run references a job snapshot
    id not yet stored; otherwise persists and indexes" the run and every tag
    of it. *)
Definition add_run (st : RunStorage) (run : DagsterRun) : result RunStorage :=
  if has_run st (run_id run) then Raise DagsterRunAlreadyExists
  else if match job_snapshot_id run with
          | Some s => negb (bool_decide (s ∈ job_snapshots st))
          | None => false
          end
  then Raise DagsterSnapshotDoesNotExist
  else
    Ok (mkStorage (mkRecord run (clock st) (clock st) :: runs st)
          (tag_rows (run_id run) (tags run) ++ run_tags st)
          (job_snapshots st) (clock st)).

Definition with_tags (run : DagsterRun) (tags : gmap string string)
    : DagsterRun :=
  mkRun (job_name run) (run_id run) tags (status run) (root_run_id run)
    (parent_run_id run) (job_snapshot_id run).

Definition with_status (run : DagsterRun) (status : DagsterRunStatus)
    : DagsterRun :=
  mkRun (job_name run) (run_id run) (tags run) status (root_run_id run)
    (parent_run_id run) (job_snapshot_id run).

(** Replace the run of the record with id [id], stamping the update. *)
Definition update_run (st : RunStorage) (id : string)
    (f : DagsterRun -> DagsterRun) : list RunRecord :=
  map (fun r =>
         if String.eqb (record_id r) id
         then mkRecord (f (dagster_run r)) (create_timestamp r) (clock st)
         else r)
    (runs st).

(** Modelled from the spec: [add_run_tags] "unions tags into the run's tag
    set; last value wins per key on the run itself"; as [test_add_run_tags]
    asserts, the index rows of the run's overwritten keys are rewritten and
    rows for its new keys are inserted. *)
Definition add_run_tags (st : RunStorage) (id : string)
    (new_tags : gmap string string) : result RunStorage :=
  match get_run_by_id st id with
  | None => Raise DagsterRunNotFoundError
  | Some _ =>
      let kept :=
        List.filter
          (fun row =>
             negb (String.eqb (row_run_id row) id
                   && bool_decide (is_Some (new_tags !! row_key row))))
          (run_tags st) in
      Ok (mkStorage
            (update_run st id (fun run => with_tags run (new_tags ∪ tags run)))
            (tag_rows id new_tags ++ kept)
            (job_snapshots st) (clock st))
  end.

(** Modelled from the spec: [delete_run] "removes the run row and every
    tag-index entry solely attributable to it; fails with RunNotFoundError if
    absent". *)
Definition delete_run (st : RunStorage) (id : string) : result RunStorage :=
  match get_run_by_id st id with
  | None => Raise DagsterRunNotFoundError
  | Some _ =>
      Ok (mkStorage
            (List.filter (fun r => negb (String.eqb (record_id r) id)) (runs st))
            (List.filter (fun row => negb (String.eqb (row_run_id row) id))
               (run_tags st))
            (job_snapshots st) (clock st))
  end.

(** Modelled from the spec: the status state machine, "START advances
    NOT_STARTED/QUEUED to STARTED (no-op if already STARTED or terminal);
    SUCCESS/FAILURE/CANCELED set terminal state unconditionally". *)
Definition apply_event (e : DagsterEventType) (s : DagsterRunStatus)
    : DagsterRunStatus :=
  match e with
  | PIPELINE_START =>
      match s with
      | NOT_STARTED | QUEUED => STARTED
      | _ => s
      end
  | PIPELINE_SUCCESS => SUCCESS
  | PIPELINE_FAILURE => FAILURE
  | PIPELINE_CANCELED => CANCELED
  | STEP_EVENT => s
  end.

(** Modelled from the spec: [handle_run_event]; "events for unknown run_id
    are silently dropped". *)
Definition handle_run_event (st : RunStorage) (id : string)
    (event : DagsterEvent) : RunStorage :=
  match get_run_by_id st id with
  | None => st
  | Some _ =>
      mkStorage
        (update_run st id
           (fun run =>
              with_status run (apply_event (event_type_value event) (status run))))
        (run_tags st) (job_snapshots st) (clock st)
  end.

(** The global tag index: the keys in order, each with its set of values. *)
Definition string_le (a b : string) : Prop := String.leb a b = true.

Global Instance string_le_dec : RelDecision string_le.
Proof. intros a b; unfold string_le; solve_decision. Defined.

(** Modelled from the spec: [get_run_tag_keys], the keys of the tag index,
    in order. *)
Definition get_run_tag_keys (st : RunStorage) : list string :=
  merge_sort string_le (remove_dups (map row_key (run_tags st))).

Definition tag_values (st : RunStorage) (key : string) : gset string :=
  list_to_set
    (map row_value
       (List.filter (fun row => String.eqb (row_key row) key) (run_tags st))).

(** Modelled from the spec: [get_run_tags], the keys of the tag index, in
    order, each with its set of values, optionally restricted to
    [tag_keys]. *)
Definition get_run_tags (st : RunStorage) (tag_keys : option (list string))
    : list (string * gset string) :=
  let keys :=
    match tag_keys with
    | Some ks =>
        List.filter (fun k => bool_decide (k ∈ ks)) (get_run_tag_keys st)
    | None => get_run_tag_keys st
    end in
  map (fun k => (k, tag_values st k)) keys.

(** A tag filter value: a single value, or a list of alternatives. *)
Inductive TagFilterValue : Type :=
  | TagValue (v : string)
  | TagValues (vs : list string).

Record RunsFilter : Type := mkFilter {
  filter_run_ids : option (list string);
  filter_job_name : option string;
  filter_statuses : list DagsterRunStatus;
  filter_tags : list (string * TagFilterValue);
  filter_snapshot_id : option string;
  updated_after : option Z;
  updated_before : option Z;
  created_after : option Z;
  created_before : option Z
}.

Definition no_filter : RunsFilter :=
  mkFilter None None [] [] None None None None None.

Definition opt_test {A : Type} (o : option A) (p : A -> bool) : bool :=
  match o with Some a => p a | None => true end.

Definition tag_matches (run : DagsterRun) (kv : string * TagFilterValue)
    : bool :=
  match tags run !! kv.1 with
  | None => false
  | Some v =>
      match kv.2 with
      | TagValue w => String.eqb v w
      | TagValues ws => bool_decide (v ∈ ws)
      end
  end.

(** The conjunction a [RunsFilter] stands for. *)
Definition matches (f : RunsFilter) (r : RunRecord) : bool :=
  let run := dagster_run r in
  opt_test (filter_run_ids f) (fun ids => bool_decide (run_id run ∈ ids))
  && opt_test (filter_job_name f) (String.eqb (job_name run))
  && (match filter_statuses f with
      | [] => true
      | ss => bool_decide (status run ∈ ss)
      end)
  && forallb (tag_matches run) (filter_tags f)
  && opt_test (filter_snapshot_id f)
       (fun s => bool_decide (job_snapshot_id run = Some s))
  && opt_test (updated_after f) (fun t => t <? update_timestamp r)
  && opt_test (updated_before f) (fun t => update_timestamp r <? t)
  && opt_test (created_after f) (fun t => t <? create_timestamp r)
  && opt_test (created_before f) (fun t => create_timestamp r <? t).

(** Modelled from the spec: the cursor of [get_runs], a run id; the records
    after the position of the cursor run in the default order, nothing when
    no run has the cursor's id. *)
Fixpoint after_cursor (cursor : string) (rs : list RunRecord)
    : list RunRecord :=
  match rs with
  | [] => []
  | r :: rest =>
      if String.eqb (record_id r) cursor then rest
      else after_cursor cursor rest
  end.

(** Modelled from the spec: [get_run_records], the records after the cursor
    that match the filter, most recently created first, at most [limit] of
    them. *)
Definition get_run_records (st : RunStorage) (f : RunsFilter)
    (cursor : option string) (limit : option nat) : list RunRecord :=
  let candidates :=
    match cursor with
    | Some c => after_cursor c (runs st)
    | None => runs st
    end in
  let matching := List.filter (matches f) candidates in
  match limit with
  | Some n => take n matching
  | None => matching
  end.

(** Modelled from the spec: [get_runs], the runs of [get_run_records]. *)
Definition get_runs (st : RunStorage) (f : RunsFilter)
    (cursor : option string) (limit : option nat) : list DagsterRun :=
  map dagster_run (get_run_records st f cursor limit).

Definition get_runs_count (st : RunStorage) (f : RunsFilter) : nat :=
  length (get_runs st f None None).

(** The root of a run's group, and the runs that share it. *)
Definition group_root (run : DagsterRun) : string :=
  default (run_id run) (root_run_id run).

Definition in_group (root : string) (r : RunRecord) : bool :=
  String.eqb (record_id r) root
  || bool_decide (root_run_id (dagster_run r) = Some root).

(** Modelled from the spec: [get_run_group], "a single indexed lookup" of
    the runs that share the root of run [id]; as
    [test_fetch_run_group_not_found] asserts, an unknown id raises
    [DagsterRunNotFoundError]. *)
Definition get_run_group (st : RunStorage) (id : string)
    : result (string * list RunRecord) :=
  match get_run_by_id st id with
  | None => Raise DagsterRunNotFoundError
  | Some r =>
      let root := group_root (dagster_run r) in
      Ok (root, List.filter (in_group root) (runs st))
  end.

(** ** The scenarios of the test-suite *)

(** [_get_run_by_id] of the test module *)
Definition _get_run_by_id (st : RunStorage) (id : string) : option DagsterRun :=
  match
    get_run_records st
      (mkFilter (Some [id]) None [] [] None None None None None) None None
  with
  | [] => None
  | r :: _ => Some (dagster_run r)
  end.

Definition filter_by_tags (kvs : list (string * TagFilterValue)) : RunsFilter :=
  mkFilter None None [] kvs None None None None None.

Definition filter_by_job (name : string) : RunsFilter :=
  mkFilter None (Some name) [] [] None None None None None.

Definition filter_by_statuses (ss : list DagsterRunStatus) : RunsFilter :=
  mkFilter None None ss [] None None None None None.

Definition tag_is (run : option DagsterRun) (k v : string) : bool :=
  match run with
  | Some r => bool_decide (tags r !! k = Some v)
  | None => false
  end.

Definition tag_count (run : option DagsterRun) : nat :=
  match run with
  | Some r => size (tags r)
  | None => 0
  end.

(** [TestRunStorage.test_add_run_tags], over the [add_run_tags] under test
    and the two fresh run ids; the value is the conjunction of its
    assertions. *)
Definition test_add_run_tags
    (add_run_tags :
       RunStorage -> string -> gmap string string -> result RunStorage)
    (one two : string) : result bool :=
  st ← add_run empty_storage (build_run one "foo" ∅ NOT_STARTED None None);
  st ← add_run st (build_run two "bar" ∅ NOT_STARTED None None);
  let a1 := bool_decide (get_run_tags st None = []) in
  st ← add_run_tags st one {[ "tag1" := "val1"; "tag2" := "val2" ]};
  st ← add_run_tags st two {[ "tag1" := "val1" ]};
  let a2 :=
    bool_decide (get_run_tags st None
                 = [("tag1", {[ "val1" ]}); ("tag2", {[ "val2" ]})]) in
  st ← add_run_tags st one {[ "tag1" := "val2"; "tag3" := "val3" ]};
  let test_run := _get_run_by_id st one in
  let a3 :=
    bool_decide (tag_count test_run = 3%nat)
    && tag_is test_run "tag1" "val2" && tag_is test_run "tag2" "val2"
    && tag_is test_run "tag3" "val3" in
  let a4 :=
    bool_decide (get_run_tags st None
                 = [("tag1", {[ "val1"; "val2" ]}); ("tag2", {[ "val2" ]});
                    ("tag3", {[ "val3" ]})]) in
  st ← add_run_tags st one {[ "tag1" := "val3" ]};
  let test_run := _get_run_by_id st one in
  let a5 :=
    bool_decide (tag_count test_run = 3%nat)
    && tag_is test_run "tag1" "val3" && tag_is test_run "tag2" "val2"
    && tag_is test_run "tag3" "val3" in
  let a6 :=
    bool_decide (get_run_tags st None
                 = [("tag1", {[ "val1"; "val3" ]}); ("tag2", {[ "val2" ]});
                    ("tag3", {[ "val3" ]})]) in
  st ← add_run_tags st one {[ "tag4" := "val4" ]};
  let test_run := _get_run_by_id st one in
  let a7 :=
    bool_decide (tag_count test_run = 4%nat)
    && tag_is test_run "tag1" "val3" && tag_is test_run "tag2" "val2"
    && tag_is test_run "tag3" "val3" && tag_is test_run "tag4" "val4" in
  let a8 :=
    bool_decide (get_run_tags st None
                 = [("tag1", {[ "val1"; "val3" ]}); ("tag2", {[ "val2" ]});
                    ("tag3", {[ "val3" ]}); ("tag4", {[ "val4" ]})]) in
  let some_runs := get_runs st (filter_by_tags [("tag3", TagValue "val3")]) None None in
  let a9 := bool_decide (map run_id some_runs = [one]) in
  let runs_with_old_tag :=
    get_runs st (filter_by_tags [("tag1", TagValue "val1")]) None None in
  let a10 :=
    bool_decide (map tags runs_with_old_tag = [ {[ "tag1" := "val1" ]} ]) in
  let runs_with_new_tag :=
    get_runs st (filter_by_tags [("tag1", TagValue "val3")]) None None in
  let a11 :=
    bool_decide (map tags runs_with_new_tag
                 = [ {[ "tag1" := "val3"; "tag2" := "val2";
                        "tag3" := "val3"; "tag4" := "val4" ]} ]) in
  Ok (a1 && a2 && a3 && a4 && a5 && a6 && a7 && a8 && a9 && a10 && a11).

(** [TestRunStorage.test_paginated_fetch] *)
Definition test_paginated_fetch (one two three : string) : result bool :=
  let mytag : gmap string string := {[ "mytag" := "hello" ]} in
  st ← add_run empty_storage
         (build_run one "some_pipeline" mytag NOT_STARTED None None);
  st ← add_run st (build_run two "some_pipeline" mytag NOT_STARTED None None);
  st ← add_run st (build_run three "some_pipeline" mytag NOT_STARTED None None);
  let page (f : RunsFilter) :=
    bool_decide (length (get_runs st f None None) = 3%nat)
    && bool_decide (map run_id (get_runs st f (Some three) (Some 1%nat))
                    = [two]) in
  Ok (page no_filter && page (filter_by_job "some_pipeline")
      && page (filter_by_tags [("mytag", TagValue "hello")])).

(** [TestRunStorage.test_fetch_by_status_cursored] *)
Definition test_fetch_by_status_cursored (one two three four : string)
    : result bool :=
  st ← add_run empty_storage
         (build_run one "some_pipeline" ∅ STARTED None None);
  st ← add_run st (build_run two "some_pipeline" ∅ STARTED None None);
  st ← add_run st (build_run three "some_pipeline" ∅ NOT_STARTED None None);
  st ← add_run st (build_run four "some_pipeline" ∅ STARTED None None);
  let started := filter_by_statuses [STARTED] in
  let ids (c : string) (limit : option nat) : list string :=
    map run_id (get_runs st started (Some c) limit) in
  Ok (bool_decide (ids four None ≡ₚ [one; two])
      && bool_decide (ids two None = [one])
      && bool_decide (ids one None = [])
      && bool_decide (ids four (Some 1%nat) = [two])).

Definition PARENT_RUN_ID_TAG : string := "dagster/parent_run_id".
Definition ROOT_RUN_ID_TAG : string := "dagster/root_run_id".

(** The runs [test_fetch_run_group] builds: a root, three children of it and
    a chain of three further descendants of the last child. *)
Definition lineage_run (id parent root : string) : DagsterRun :=
  build_run id "foo_job"
    {[ PARENT_RUN_ID_TAG := parent; ROOT_RUN_ID_TAG := root ]}
    NOT_STARTED (Some parent) (Some root).

Definition run_group_runs (root c0 c1 c2 a b c : string) : list DagsterRun :=
  [ build_run root "foo_job" ∅ NOT_STARTED None None;
    lineage_run c0 root root; lineage_run c1 root root;
    lineage_run c2 root root;
    lineage_run a c2 root; lineage_run b a root; lineage_run c b root ].

Fixpoint add_runs (st : RunStorage) (rs : list DagsterRun)
    : result RunStorage :=
  match rs with
  | [] => Ok st
  | r :: rest => st' ← add_run st r; add_runs st' rest
  end.

(** [TestRunStorage.test_fetch_run_group] *)
Definition test_fetch_run_group (root c0 c1 c2 a b c : string) : result bool :=
  st ← add_runs empty_storage (run_group_runs root c0 c1 c2 a b c);
  run_group_one ← get_run_group st root;
  run_group_two ← get_run_group st c;
  Ok (bool_decide (length run_group_one.2 = 7%nat)
      && bool_decide (length run_group_two.2 = 7%nat)
      && bool_decide (list_ascii_of_string run_group_one.1
                      ≡ₚ list_ascii_of_string run_group_two.1)
      && bool_decide (map record_id run_group_one.2
                      ≡ₚ map record_id run_group_two.2)).

(** [TestRunStorage.test_fetch_run_group_not_found]: the call must raise
    [DagsterRunNotFoundError]. *)
Definition test_fetch_run_group_not_found (one other : string) : result bool :=
  st ← add_run empty_storage (build_run one "foo_job" ∅ NOT_STARTED None None);
  Ok (match get_run_group st other with
      | Raise DagsterRunNotFoundError => true
      | _ => false
      end).

Definition status_is (run : option DagsterRun) (s : DagsterRunStatus) : bool :=
  match run with
  | Some r => bool_decide (status r = s)
  | None => false
  end.

(** [TestRunStorage.test_handle_run_event_job_success_test] *)
Definition test_handle_run_event_job_success_test (id other : string)
    : result bool :=
  st ← add_run empty_storage
         (build_run id "pipeline_name" ∅ NOT_STARTED None None);
  let st := handle_run_event st id
              (mkEvent "a message" PIPELINE_START "pipeline_name") in
  let a1 := status_is (_get_run_by_id st id) STARTED in
  let st := handle_run_event st other
              (mkEvent "a message" PIPELINE_SUCCESS "pipeline_name") in
  let a2 := status_is (_get_run_by_id st id) STARTED in
  let st := handle_run_event st id
              (mkEvent "a message" PIPELINE_SUCCESS "pipeline_name") in
  let a3 := status_is (_get_run_by_id st id) SUCCESS in
  Ok (a1 && a2 && a3).

(** ** Histories of the store *)

(** The index as the prose of the spec words it ("the tag-value index must
    retain every historically-seen value for that key"): rows are only ever
    inserted, never rewritten.  Kept beside [add_run_tags] to compare the two
    on the test-suite. *)
Definition add_run_tags_retaining (st : RunStorage) (id : string)
    (new_tags : gmap string string) : result RunStorage :=
  match get_run_by_id st id with
  | None => Raise DagsterRunNotFoundError
  | Some _ =>
      Ok (mkStorage
            (update_run st id (fun run => with_tags run (new_tags ∪ tags run)))
            (tag_rows id new_tags ++ run_tags st)
            (job_snapshots st) (clock st))
  end.

Inductive operation : Type :=
  | AddRun (run : DagsterRun)
  | AddRunTags (id : string) (new_tags : gmap string string)
  | HandleRunEvent (id : string) (event : DagsterEvent)
  | DeleteRun (id : string)
  | AddJobSnapshot (snapshot_id : string)
  | Advance (seconds : Z).

Definition step (st : RunStorage) (op : operation) : result RunStorage :=
  match op with
  | AddRun run => add_run st run
  | AddRunTags id new_tags => add_run_tags st id new_tags
  | HandleRunEvent id event => Ok (handle_run_event st id event)
  | DeleteRun id => delete_run st id
  | AddJobSnapshot snapshot_id => Ok (add_job_snapshot st snapshot_id)
  | Advance seconds => Ok (advance st seconds)
  end.

(** An operation that raises leaves the store as it was. *)
Definition apply (st : RunStorage) (op : operation) : RunStorage :=
  match step st op with
  | Ok st' => st'
  | Raise _ => st
  end.

Definition replay (st : RunStorage) (ops : list operation) : RunStorage :=
  fold_left apply ops st.

Definition reachable (st : RunStorage) : Prop :=
  exists ops, replay empty_storage ops = st.

(** The (key, value) pairs an operation assigns to a run, when it succeeds. *)
Definition assigned_by (st : RunStorage) (op : operation)
    : list (string * string) :=
  match op with
  | AddRun run => if is_ok (add_run st run) then map_to_list (tags run) else []
  | AddRunTags id new_tags =>
      if is_ok (add_run_tags st id new_tags) then map_to_list new_tags else []
  | _ => []
  end.

Fixpoint ever_assigned (st : RunStorage) (ops : list operation)
    : list (string * string) :=
  match ops with
  | [] => []
  | op :: rest => assigned_by st op ++ ever_assigned (apply st op) rest
  end.

(** [get_run_tags()] reports value [v] for key [k]. *)
Definition reports (st : RunStorage) (k v : string) : bool :=
  existsb (fun kv => String.eqb kv.1 k && bool_decide (v ∈ kv.2))
    (get_run_tags st None).

(** Some stored run currently holds value [v] for key [k]. *)
Definition holds (st : RunStorage) (k v : string) : bool :=
  existsb (fun r => bool_decide (tags (dagster_run r) !! k = Some v)) (runs st).

(** The operations of [test_add_run_tags], in order. *)
Definition add_run_tags_history (one two : string) : list operation :=
  [ AddRun (build_run one "foo" ∅ NOT_STARTED None None);
    AddRun (build_run two "bar" ∅ NOT_STARTED None None);
    AddRunTags one {[ "tag1" := "val1"; "tag2" := "val2" ]};
    AddRunTags two {[ "tag1" := "val1" ]};
    AddRunTags one {[ "tag1" := "val2"; "tag3" := "val3" ]};
    AddRunTags one {[ "tag1" := "val3" ]} ].

(** Walking [get_runs] page by page: each page is fetched with the id of the
    last run of the page before as its cursor, until a page comes back
    empty. *)
Fixpoint walk (fuel : nat) (st : RunStorage) (f : RunsFilter) (limit : nat)
    (cursor : option string) : list DagsterRun :=
  match fuel with
  | O => []
  | S fuel' =>
      let page := get_runs st f cursor (Some limit) in
      match last page with
      | None => []
      | Some r => page ++ walk fuel' st f limit (Some (run_id r))
      end
  end.

(** Run ids are unique in the store. *)
Definition unique_ids (st : RunStorage) : Prop :=
  NoDup (map record_id (runs st)).

(** The tag index holds one row per tag a stored run currently has. *)
Definition index_consistent (st : RunStorage) : Prop :=
  forall row, row ∈ run_tags st <->
    exists r, r ∈ runs st /\ record_id r = row_run_id row
              /\ tags (dagster_run r) !! row_key row = Some (row_value row).



Definition started_storage : RunStorage :=
  replay empty_storage
    [ AddRun (build_run "run" "pipeline_name" ∅ NOT_STARTED None None);
      HandleRunEvent "run" (mkEvent "a message" PIPELINE_START "pipeline_name") ].

(** The store of [test_fetch_by_status_cursored]. *)
Definition cursored_storage : RunStorage :=
  replay empty_storage
    [ AddRun (build_run "one" "some_pipeline" ∅ STARTED None None);
      AddRun (build_run "two" "some_pipeline" ∅ STARTED None None);
      AddRun (build_run "three" "some_pipeline" ∅ NOT_STARTED None None);
      AddRun (build_run "four" "some_pipeline" ∅ STARTED None None) ].

(** The records a query with the given cursor chooses from. *)
Definition candidates (st : RunStorage) (cursor : option string)
    : list RunRecord :=
  match cursor with
  | Some c => after_cursor c (runs st)
  | None => runs st
  end.

Definition statuses (st : RunStorage) : list (string * DagsterRunStatus) :=
  map (fun r => (record_id r, status (dagster_run r))) (runs st).

(** ** Subsets and their coverage *)

(** The subset that holds the single partition [key] of [d]. *)
Definition subset_with_partition_key {D : Type}
    `{TimeWindowPartitionsDefinition D} (d : D) (key : string)
    : result (TimeWindowPartitionsSubset D) :=
  s ← parsed (start_time_for_partition_key d key);
  e ← parsed (end_time_for_partition_key d key);
  Ok (mkSubset d 1%nat [mkTimeWindow s e]).

(** The instant [t] lies in one of the windows. *)
Definition covers (windows : list TimeWindow) (t : datetime) : bool :=
  existsb (fun w => (start w <=? t) && (t <? end_ w)) windows.

(** The checks of [_map_partitions] that precede the window arithmetic let
    the call through, and it does not take the identity shortcut. *)
Definition reaches_clipping {D : Type} `{TimeWindowPartitionsDefinition D}
    (from_partitions_def to_partitions_def : D) (start_offset end_offset : Z)
    : bool :=
  negb ((negb (start_offset =? 0) || negb (end_offset =? 0))
        && negb (String.eqb (cron_schedule from_partitions_def)
                   (cron_schedule to_partitions_def)))
  && String.eqb (timezone to_partitions_def) (timezone from_partitions_def)
  && negb (bool_decide (from_partitions_def = to_partitions_def)
           && (start_offset =? 0) && (end_offset =? 0)).

(** The subset [_map_partitions] builds from the clipped windows. *)
Definition subset_of_windows {D : Type} `{TimeWindowPartitionsDefinition D}
    (to_partitions_def : D) (windows : list TimeWindow)
    : TimeWindowPartitionsSubset D :=
  mkSubset to_partitions_def
    (sum_list
       (map (fun time_window =>
               length (get_partition_keys_in_time_window to_partitions_def
                         time_window))
          windows))
    windows.

Definition hourly (start : string) : CronPartitionsDefinition :=
  mkCronDef HOURLY (default 0 (strptime HOURLY start)) "UTC".

(** ** The calendar range of the model *)

(** 2100-01-01 00:00 UTC: keys are encoded and decoded for instants from the
    epoch up to here. *)
Definition calendar_end : datetime := 4102444800.

(** The encoding of every day from day [d] on, [n] days in all, decodes to
    the day. *)
Fixpoint dates_round_trip (n : nat) (d : Z) : bool :=
  match n with
  | O => true
  | S n' =>
      bool_decide (Calendar.parse_date (Calendar.format_date d) = Some d)
      && dates_round_trip n' (d + 1)
  end.

(** The window moved by [so] partitions at its start and [eo] at its end. *)
Definition shift_window (p so eo : Z) (w : TimeWindow) : TimeWindow :=
  mkTimeWindow (start w + so * p) (end_ w + eo * p).

(** A window of the source definition that the mapping with offsets
    [(so, eo)] neither empties nor moves out of what both definitions hold:
    its ends are ticks of the schedule, it and its shift are non-empty, and
    both lie after the start of either definition, at or before the wall
    clock and [current_time], and inside the calendar range. *)
Definition interior (now : datetime) (current_time : option datetime)
    (from_def to_def : CronPartitionsDefinition) (so eo : Z) (w : TimeWindow)
    : Prop :=
  let p := period (schedule_type from_def) in
  let lo := Z.max 0 (Z.max (start_date from_def) (start_date to_def)) in
  let hi := Z.min calendar_end (Z.min now (default now current_time)) in
  start w mod p = 0 /\ end_ w mod p = 0
  /\ start w < end_ w
  /\ start w + so * p < end_ w + eo * p
  /\ lo <= start w /\ lo <= start w + so * p
  /\ end_ w <= hi /\ end_ w + eo * p <= hi.

(** ** Scenarios of the mapping *)

(** The wall clock of the scenarios: 2023-11-14 22:13:20 UTC. *)
Definition scenario_now : datetime := 1700000000.

(** The operations of the scenarios read that clock. *)
Global Instance scenario_definition :
  TimeWindowPartitionsDefinition CronPartitionsDefinition | 0 :=
  cron_definition scenario_now.

(** The hourly partition ["2020-01-01-00:00"] of an hourly definition that
    starts with it. *)
Definition first_hour_subset
    : TimeWindowPartitionsSubset CronPartitionsDefinition :=
  mkSubset (hourly "2020-01-01-00:00") 1%nat
    [mkTimeWindow 1577836800 1577840400].

(** The daily partition ["2022-07-04"] of a daily definition that starts on
    2020-01-01. *)
Definition july_fourth_subset
    : TimeWindowPartitionsSubset CronPartitionsDefinition :=
  mkSubset (daily "2020-01-01") 1%nat [mkTimeWindow 1656892800 1656979200].

(** The first daily partition, ["2020-01-01"], of a daily definition that
    starts on 2020-01-01. *)
Definition first_day_subset
    : TimeWindowPartitionsSubset CronPartitionsDefinition :=
  mkSubset (daily "2020-01-01") 1%nat [mkTimeWindow 1577836800 1577923200].

(** * Properties *)

(** ** The mapping over any partitions definitions *)

Section MappingProperties.
Context {D : Type} `{TimeWindowPartitionsDefinition D}.

Implicit Types (from_def to_def : D) (subset : TimeWindowPartitionsSubset D).

(** The window arithmetic raises nothing but the errors of a missing first
    or last window and of an unparsable key. *)
Lemma map_time_window_raises from_def to_def so eo w e :
  map_time_window from_def to_def so eo w = Raise e ->
  e = AttributeError \/ e = ValueError.
Proof.
  unfold map_time_window, parsed, window_attr.
  repeat (case_match; simpl in * );
    intros He; inversion He; auto.
Qed.

Lemma map_time_windows_raises from_def to_def so eo ws e :
  map_time_windows from_def to_def so eo ws = Raise e ->
  e = AttributeError \/ e = ValueError.
Proof.
  induction ws as [|w ws IH]; simpl; [discriminate|].
  destruct (map_time_window from_def to_def so eo w) as [o|e'] eqn:Hw; simpl.
  - destruct (map_time_windows from_def to_def so eo ws) as [tws|e'']; simpl.
    + discriminate.
    + intros [= <-]. auto.
  - intros [= <-]. eapply map_time_window_raises; eauto.
Qed.

(** What [_map_partitions] does once its checks let the call through. *)
Lemma _map_partitions_clipping from_def to_def subset so eo strict ct :
  reaches_clipping from_def to_def so eo = true ->
  _map_partitions from_def to_def subset so eo strict ct
  = (time_windows ←
       map_time_windows from_def to_def so eo (included_time_windows subset);
     let filtered :=
       filter_time_windows (get_first_partition_window to_def ct)
         (get_last_partition_window to_def ct) time_windows in
     if strict && negb (bool_decide (filtered = time_windows))
     then Raise (DagsterInvalidInvocationError time_windows)
     else Ok (subset_of_windows to_def filtered)).
Proof.
  unfold reaches_clipping, _map_partitions. intros Hr.
  apply andb_true_iff in Hr as [Hr Hfast].
  apply andb_true_iff in Hr as [Hcron Htz].
  apply negb_true_iff in Hcron. rewrite Hcron.
  rewrite Htz. simpl.
  apply negb_true_iff in Hfast. rewrite Hfast. reflexivity.
Qed.

(** A call that does not reach the clipping raises a definition error or
    returns its input. *)
Lemma _map_partitions_shortcut from_def to_def subset so eo strict ct :
  reaches_clipping from_def to_def so eo = false ->
  (exists msg, _map_partitions from_def to_def subset so eo strict ct
               = Raise (DagsterInvalidDefinitionError msg))
  \/ _map_partitions from_def to_def subset so eo strict ct = Ok subset.
Proof.
  unfold reaches_clipping, _map_partitions. intros Hr.
  destruct (_ && negb (String.eqb (cron_schedule from_def) _)); [eauto|].
  destruct (String.eqb (timezone to_def) _); simpl in *; [|eauto].
  destruct (_ && (eo =? 0)); simpl in *; [auto|discriminate].
Qed.



Lemma strict_ok_lenient from_def to_def subset so eo ct r :
  _map_partitions from_def to_def subset so eo true ct = Ok r ->
  _map_partitions from_def to_def subset so eo false ct = Ok r.
Proof.
  destruct (reaches_clipping from_def to_def so eo) eqn:Hr.
  - rewrite !_map_partitions_clipping by done.
    destruct (map_time_windows _ _ _ _ _) as [tws|e]; simpl; [|done].
    case_bool_decide as Hf; simpl; [|discriminate].
    rewrite Hf. done.
  - unfold reaches_clipping in Hr. unfold _map_partitions.
    destruct (_ && negb (String.eqb (cron_schedule from_def) _)); [done|].
    destruct (String.eqb (timezone to_def) _); simpl in *; [|done].
    destruct (_ && (eo =? 0)); simpl in *; [done|discriminate].
Qed.

(** C9: the downstream method is the shared routine with both configured
    offsets negated and the strict mode off, the upstream method is the
    routine with the offsets as configured and the strict mode on; so the
    downstream direction of a mapping returns whatever the upstream
    direction of the mapping with the opposite offsets returns. *)
Theorem downstream_inverts_offsets
    (self : TimeWindowPartitionMapping) subset to_def
    (current_time : option datetime) :
  get_downstream_partitions_for_partitions self (TimeWindowSubset subset)
    (Some (TimeWindowDef to_def)) current_time
  = _map_partitions (partitions_def subset) to_def subset
      (- start_offset self) (- end_offset self) false current_time
  /\ get_upstream_partitions_for_partitions self
       (Some (TimeWindowSubset subset)) (TimeWindowDef to_def) current_time
     = _map_partitions (partitions_def subset) to_def subset
         (start_offset self) (end_offset self) true current_time
  /\ (forall r,
        get_upstream_partitions_for_partitions
          (mkMapping (- start_offset self) (- end_offset self))
          (Some (TimeWindowSubset subset)) (TimeWindowDef to_def)
          current_time = Ok r ->
        get_downstream_partitions_for_partitions self
          (TimeWindowSubset subset) (Some (TimeWindowDef to_def))
          current_time = Ok r).
Proof.
  split; [reflexivity|]. split; [reflexivity|].
  intros r. simpl. apply strict_ok_lenient.
Qed.
End MappingProperties.

Section DefinitionErrors.
Context {D : Type} `{TimeWindowPartitionsDefinition D}.

(** C6, as the code has it: between two definitions whose cron schedules
    differ, a non-zero offset makes the call raise the definition error that
    names the two cron schedules, whatever the subset; with zero offsets a
    timezone mismatch raises the definition error about the timezones; with
    zero offsets and equal timezones no definition error is raised and the
    call is the translation of the windows between the two schedules
    followed by the clipping, which in strict mode raises the error for
    non-existent partitions when clipping changes the windows. *)
Theorem differing_schedules_checked (from_def to_def : D)
    (subset : TimeWindowPartitionsSubset D) (so eo : Z) (strict : bool)
    (current_time : option datetime) :
  cron_schedule from_def <> cron_schedule to_def ->
  let call :=
    _map_partitions from_def to_def subset so eo strict current_time in
  (so <> 0 \/ eo <> 0 ->
   call = Raise (DagsterInvalidDefinitionError
                   (cron_schedule_message from_def to_def)))
  /\ (so = 0 /\ eo = 0 -> timezone to_def <> timezone from_def ->
      call = Raise (DagsterInvalidDefinitionError "Timezones don't match"))
  /\ (so = 0 /\ eo = 0 -> timezone to_def = timezone from_def ->
      (forall msg, call <> Raise (DagsterInvalidDefinitionError msg))
      /\ call
         = (time_windows ←
              map_time_windows from_def to_def 0 0
                (included_time_windows subset);
            let filtered :=
              filter_time_windows
                (get_first_partition_window to_def current_time)
                (get_last_partition_window to_def current_time)
                time_windows in
            if strict && negb (bool_decide (filtered = time_windows))
            then Raise (DagsterInvalidInvocationError time_windows)
            else Ok (subset_of_windows to_def filtered))).
Proof.
  intros Hcron call.
  assert (Hneq : String.eqb (cron_schedule from_def) (cron_schedule to_def)
                 = false) by (by apply String.eqb_neq).
  split; [|split].
  - intros Hoff. subst call. unfold _map_partitions. rewrite Hneq.
    assert ((negb (so =? 0) || negb (eo =? 0)) = true) as ->.
    { apply orb_true_iff. destruct Hoff as [Hs|He]; [left|right];
        apply negb_true_iff; lia. }
    reflexivity.
  - intros [-> ->] Htz. subst call. unfold _map_partitions. simpl.
    apply String.eqb_neq in Htz. rewrite Htz. reflexivity.
  - intros [-> ->] Htz.
    assert (Hr : reaches_clipping from_def to_def 0 0 = true).
    { unfold reaches_clipping. simpl. rewrite Htz, String.eqb_refl. simpl.
      rewrite !andb_true_r. apply negb_true_iff, bool_decide_eq_false_2.
      intros ->. done. }
    subst call. rewrite _map_partitions_clipping by done. split; [|done].
    intros msg.
    destruct (map_time_windows from_def to_def 0 0
                (included_time_windows subset)) as [tws|e] eqn:Hm; simpl.
    + destruct (strict && _); discriminate.
    + intros [= ->].
      apply map_time_windows_raises in Hm as [?|?]; discriminate.
Qed.
End DefinitionErrors.

(** C6, the claim as worded fails: an hourly downstream partition of
    2020-01-01 maps, with zero offsets and equal timezones, onto the daily
    partition 2020-01-01 of an upstream definition that starts a day later,
    and the upstream direction raises instead of succeeding. *)
Lemma zero_offsets_upstream_raises :
  ~ (forall (from_def to_def : CronPartitionsDefinition)
       (subset : TimeWindowPartitionsSubset CronPartitionsDefinition)
       (strict : bool) (current_time : option datetime),
        cron_schedule from_def <> cron_schedule to_def ->
        timezone to_def = timezone from_def ->
        is_ok (_map_partitions from_def to_def subset 0 0 strict current_time)
        = true).
Proof.
  intros Hclaim.
  specialize (Hclaim (hourly "2020-01-01-00:00") (daily "2020-01-02")
                first_hour_subset true None).
  vm_compute in Hclaim.
  assert (false = true) as Hf by (apply Hclaim; [discriminate|reflexivity]).
  discriminate Hf.
Qed.

Lemma differing_schedules_checked_witness :
  let from_def := hourly "2020-01-01-00:00" in
  let to_def := daily "2020-01-02" in
  cron_schedule from_def <> cron_schedule to_def
  /\ let call :=
       _map_partitions from_def to_def first_hour_subset 0 0 true None in
     (0 <> 0 \/ 0 <> 0 ->
      call = Raise (DagsterInvalidDefinitionError
                      (cron_schedule_message from_def to_def)))
     /\ (0 = 0 /\ 0 = 0 -> timezone to_def <> timezone from_def ->
         call = Raise (DagsterInvalidDefinitionError "Timezones don't match"))
     /\ (0 = 0 /\ 0 = 0 -> timezone to_def = timezone from_def ->
         (forall msg, call <> Raise (DagsterInvalidDefinitionError msg))
         /\ call
            = (time_windows ←
                 map_time_windows from_def to_def 0 0
                   (included_time_windows first_hour_subset);
               let filtered :=
                 filter_time_windows
                   (get_first_partition_window to_def None)
                   (get_last_partition_window to_def None)
                   time_windows in
               if true && negb (bool_decide (filtered = time_windows))
               then Raise (DagsterInvalidInvocationError time_windows)
               else Ok (subset_of_windows to_def filtered))).
Proof.
  intros from_def to_def.
  assert (Hcron : cron_schedule from_def <> cron_schedule to_def)
    by discriminate.
  split; [exact Hcron|].
  exact (differing_schedules_checked from_def to_def first_hour_subset 0 0
           true None Hcron).
Defined.

(** ** The run store *)

(** The model passes the scenarios of the test-suite it was written
    against. *)
Example test_add_run_tags_passes :
  test_add_run_tags add_run_tags "one" "two" = Ok true.
Proof. vm_compute. reflexivity. Qed.

Example test_paginated_fetch_passes :
  test_paginated_fetch "one" "two" "three" = Ok true.
Proof. vm_compute. reflexivity. Qed.

Example test_fetch_by_status_cursored_passes :
  test_fetch_by_status_cursored "one" "two" "three" "four" = Ok true.
Proof. vm_compute. reflexivity. Qed.

Example test_fetch_run_group_passes :
  test_fetch_run_group "root" "c0" "c1" "c2" "a" "b" "c" = Ok true.
Proof. vm_compute. reflexivity. Qed.

Example test_fetch_run_group_not_found_passes :
  test_fetch_run_group_not_found "one" "other" = Ok true.
Proof. vm_compute. reflexivity. Qed.

Example test_handle_run_event_job_success_test_passes :
  test_handle_run_event_job_success_test "run" "other" = Ok true.
Proof. vm_compute. reflexivity. Qed.

(** An index that retains every value ever seen, as the prose has it, fails
    the assertions of [test_add_run_tags]. *)
Example test_add_run_tags_rejects_retaining_index :
  test_add_run_tags add_run_tags_retaining "one" "two" = Ok false.
Proof. vm_compute. reflexivity. Qed.

Lemma has_run_false st id :
  has_run st id = false <-> get_run_by_id st id = None.
Proof.
  unfold has_run. destruct (get_run_by_id st id); simpl; split; congruence.
Qed.

(** C8: an event for a run the store does not hold raises nothing and leaves
    the store, and with it the status of every stored run, as it was. *)
Theorem unknown_run_event_dropped (st : RunStorage) (id : string)
    (event : DagsterEvent) :
  has_run st id = false ->
  step st (HandleRunEvent id event) = Ok st
  /\ handle_run_event st id event = st
  /\ statuses (handle_run_event st id event) = statuses st.
Proof.
  intros Hno. apply has_run_false in Hno.
  assert (handle_run_event st id event = st) as Heq.
  { unfold handle_run_event. rewrite Hno. reflexivity. }
  simpl. rewrite Heq. auto.
Qed.

Lemma unknown_run_event_dropped_witness :
  let event := mkEvent "a message" PIPELINE_SUCCESS "pipeline_name" in
  has_run started_storage "other" = false
  /\ (step started_storage (HandleRunEvent "other" event) = Ok started_storage
      /\ handle_run_event started_storage "other" event = started_storage
      /\ statuses (handle_run_event started_storage "other" event)
         = statuses started_storage).
Proof.
  intros event.
  assert (Hno : has_run started_storage "other" = false)
    by (vm_compute; reflexivity).
  split; [exact Hno|].
  exact (unknown_run_event_dropped started_storage "other" event Hno).
Defined.

Lemma get_run_by_id_Some st id r :
  get_run_by_id st id = Some r -> r ∈ runs st /\ record_id r = id.
Proof.
  unfold get_run_by_id. intros Hf. apply find_some in Hf as [Hin Heq].
  split; [by apply list_elem_of_In|by apply String.eqb_eq].
Qed.





(** *** Invariants of the reachable stores *)

Lemma elem_of_filter_bool {A : Type} (f : A -> bool) (l : list A) (x : A) :
  x ∈ List.filter f l <-> x ∈ l /\ f x = true.
Proof. rewrite !list_elem_of_In. apply filter_In. Qed.

Lemma elem_of_map {A B : Type} (f : A -> B) (l : list A) (y : B) :
  y ∈ map f l <-> exists x, y = f x /\ x ∈ l.
Proof.
  rewrite list_elem_of_In, in_map_iff. split.
  - intros (x & <- & Hx). exists x. by rewrite list_elem_of_In.
  - intros (x & -> & Hx). exists x. by rewrite <- list_elem_of_In.
Qed.

Lemma get_run_by_id_None st id :
  get_run_by_id st id = None <-> id ∉ map record_id (runs st).
Proof.
  unfold get_run_by_id. split.
  - intros Hf Hin. apply elem_of_map in Hin as (r & -> & Hr).
    apply list_elem_of_In in Hr.
    pose proof (find_none _ _ Hf r Hr) as Hne. simpl in Hne.
    by rewrite String.eqb_refl in Hne.
  - intros Hnin. destruct (List.find _ _) as [r|] eqn:Hf; [|done].
    exfalso. apply Hnin. apply find_some in Hf as [Hin Heq].
    apply String.eqb_eq in Heq. subst id.
    apply elem_of_map. exists r. by rewrite list_elem_of_In.
Qed.

Lemma update_run_ids st id f :
  (forall run, run_id (f run) = run_id run) ->
  map record_id (update_run st id f) = map record_id (runs st).
Proof.
  intros Hf. unfold update_run. rewrite map_map. apply map_ext. intros r.
  destruct (String.eqb (record_id r) id); [|done].
  unfold record_id. simpl. apply Hf.
Qed.

Lemma elem_of_update_run st id f r' :
  r' ∈ update_run st id f <->
  exists r, r ∈ runs st
    /\ r' = (if String.eqb (record_id r) id
             then mkRecord (f (dagster_run r)) (create_timestamp r) (clock st)
             else r).
Proof.
  unfold update_run. rewrite elem_of_map. split.
  - intros (r & -> & Hr). eauto.
  - intros (r & Hr & ->). eauto.
Qed.

Lemma NoDup_filter_bool {A B : Type} (g : A -> B) (f : A -> bool) (l : list A) :
  NoDup (map g l) -> NoDup (map g (List.filter f l)).
Proof.
  induction l as [|x l IH]; simpl; [done|].
  rewrite NoDup_cons. intros [Hx Hnd]. destruct (f x); simpl; [|by apply IH].
  apply NoDup_cons. split; [|by apply IH].
  intros Hin. apply Hx. apply elem_of_map in Hin as (y & Hy & Hin).
  apply elem_of_filter_bool in Hin as [Hin _].
  apply elem_of_map. eauto.
Qed.

Lemma apply_unique_ids st op : unique_ids st -> unique_ids (apply st op).
Proof.
  unfold unique_ids, apply. intros Hnd.
  destruct op as [run|id new_tags|id event|id|snapshot_id|seconds]; simpl.
  - unfold add_run.
    destruct (has_run st (run_id run)) eqn:Hhas; [done|].
    destruct (match job_snapshot_id run with Some _ => _ | None => _ end);
      [done|].
    simpl. apply NoDup_cons. split; [|done].
    by apply get_run_by_id_None, has_run_false.
  - unfold add_run_tags. destruct (get_run_by_id st id); [|done].
    simpl. by rewrite update_run_ids.
  - unfold handle_run_event. destruct (get_run_by_id st id); [|done].
    simpl. by rewrite update_run_ids.
  - unfold delete_run. destruct (get_run_by_id st id); [|done].
    simpl. by apply NoDup_filter_bool.
  - done.
  - done.
Qed.

Lemma elem_of_tag_rows id (tags : gmap string string) row :
  row ∈ tag_rows id tags <->
  row_run_id row = id /\ tags !! row_key row = Some (row_value row).
Proof.
  unfold tag_rows. rewrite elem_of_map. split.
  - intros ([k v] & -> & Hkv). simpl. by apply elem_of_map_to_list in Hkv.
  - intros [<- Hl]. exists (row_key row, row_value row). split.
    + by destruct row.
    + by apply elem_of_map_to_list.
Qed.

Lemma apply_index_consistent st op :
  unique_ids st -> index_consistent st -> index_consistent (apply st op).
Proof.
  unfold apply. intros Hids Hidx.
  destruct op as [run|id new_tags|id event|id|snapshot_id|seconds]; simpl;
    try done.
  - unfold add_run.
    destruct (has_run st (run_id run)) eqn:Hhas; [done|].
    destruct (match job_snapshot_id run with Some _ => _ | None => _ end);
      [done|].
    intros row. simpl. rewrite elem_of_app, elem_of_tag_rows, (Hidx row).
    split.
    + intros [[Hid Hl]|(r & Hr & Hid & Hl)].
      * eexists. split; [apply elem_of_cons; by left|]. done.
      * exists r. split; [apply elem_of_cons; by right|done].
    + intros (r & Hr & Hid & Hl).
      apply elem_of_cons in Hr as [->|Hr]; [by left|].
      right. eauto.
  - unfold add_run_tags. destruct (get_run_by_id st id) as [r0|] eqn:Hget;
      [|done].
    apply get_run_by_id_Some in Hget as [Hin0 Hid0].
    intros row. simpl.
    rewrite elem_of_app, elem_of_tag_rows, elem_of_filter_bool, (Hidx row).
    rewrite negb_true_iff, andb_false_iff, String.eqb_neq,
      bool_decide_eq_false.
    split.
    + intros [[Hid Hl]|[(r & Hr & Hid & Hl) Hkeep]].
      * exists (mkRecord (with_tags (dagster_run r0) (new_tags ∪ tags (dagster_run r0)))
                  (create_timestamp r0) (clock st)).
        split.
        { apply elem_of_update_run. exists r0. split; [done|].
          by rewrite Hid0, String.eqb_refl. }
        split; [by rewrite Hid|].
        simpl. by apply lookup_union_Some_l.
      * destruct (String.eqb (record_id r) id) eqn:Hrid.
        { apply String.eqb_eq in Hrid.
          eexists. split.
          { apply elem_of_update_run. exists r. split; [done|].
            rewrite Hrid, String.eqb_refl. done. }
          split; [done|]. simpl.
          destruct Hkeep as [Hne|Hnone]; [congruence|].
          rewrite lookup_union_r; [done|].
          by apply eq_None_not_Some. }
        { exists r. split; [|done].
          apply elem_of_update_run. exists r. split; [done|].
          by rewrite Hrid. }
    + intros (r' & Hr' & Hid & Hl).
      apply elem_of_update_run in Hr' as (r & Hr & ->).
      destruct (String.eqb (record_id r) id) eqn:Hrid.
      * apply String.eqb_eq in Hrid. simpl in Hid, Hl.
        unfold record_id in Hid. simpl in Hid.
        destruct (new_tags !! row_key row) as [v|] eqn:Hnew.
        { left. split; [by rewrite <- Hid|].
          erewrite lookup_union_Some_l in Hl by done. done. }
        { right. rewrite lookup_union_r in Hl by done.
          split; [|by right; apply eq_None_not_Some].
          exists r. done. }
      * apply String.eqb_neq in Hrid. right. split; [by exists r|].
        left. congruence.
  - unfold handle_run_event.
    destruct (get_run_by_id st id) as [r0|] eqn:Hget; [|done].
    intros row. simpl. rewrite (Hidx row). split.
    + intros (r & Hr & Hid & Hl).
      eexists. split; [apply elem_of_update_run; eauto|].
      destruct (String.eqb (record_id r) id); done.
    + intros (r' & Hr' & Hid & Hl).
      apply elem_of_update_run in Hr' as (r & Hr & ->).
      exists r. split; [done|].
      destruct (String.eqb (record_id r) id); done.
  - unfold delete_run.
    destruct (get_run_by_id st id) as [r0|] eqn:Hget; [|done].
    intros row. simpl. rewrite !elem_of_filter_bool, (Hidx row).
    rewrite negb_true_iff, String.eqb_neq. split.
    + intros [(r & Hr & Hid & Hl) Hne]. exists r.
      rewrite elem_of_filter_bool, negb_true_iff, String.eqb_neq.
      split; [split; [done|congruence]|done].
    + intros (r & Hr & Hid & Hl).
      rewrite elem_of_filter_bool, negb_true_iff, String.eqb_neq in Hr.
      destruct Hr as [Hr Hne]. split; [eauto|congruence].
Qed.

Lemma replay_invariant (P : RunStorage -> Prop) :
  (forall st op, P st -> P (apply st op)) ->
  forall ops st, P st -> P (replay st ops).
Proof.
  intros Hstep ops. induction ops as [|op ops IH]; intros st Hst; [done|].
  simpl. apply IH. by apply Hstep.
Qed.

Lemma reachable_invariants st :
  reachable st -> unique_ids st /\ index_consistent st.
Proof.
  intros [ops <-].
  apply (replay_invariant (fun st => unique_ids st /\ index_consistent st)).
  - intros st op [Hids Hidx]. split.
    + by apply apply_unique_ids.
    + by apply apply_index_consistent.
  - split.
    + apply NoDup_nil_2.
    + intros row. simpl. split.
      * intros Hin. by apply elem_of_nil in Hin.
      * intros (r & Hr & _). by apply elem_of_nil in Hr.
Qed.

(** *** The tag index *)

Lemma elem_of_tag_values st k v :
  v ∈ tag_values st k <->
  exists row, row ∈ run_tags st /\ row_key row = k /\ row_value row = v.
Proof.
  unfold tag_values. rewrite elem_of_list_to_set, elem_of_map. split.
  - intros (row & -> & Hrow). apply elem_of_filter_bool in Hrow as [Hin Hk].
    apply String.eqb_eq in Hk. eauto.
  - intros (row & Hin & Hk & Hv). exists row. split; [done|].
    apply elem_of_filter_bool. split; [done|]. by apply String.eqb_eq.
Qed.

Lemma elem_of_get_run_tag_keys st k :
  k ∈ get_run_tag_keys st <-> exists row, row ∈ run_tags st /\ row_key row = k.
Proof.
  unfold get_run_tag_keys.
  rewrite merge_sort_Permutation, elem_of_remove_dups, elem_of_map.
  split; intros (row & Hk & Hin); eauto.
Qed.

Lemma reports_true st k v :
  reports st k v = true <->
  exists row, row ∈ run_tags st /\ row_key row = k /\ row_value row = v.
Proof.
  unfold reports, get_run_tags. rewrite existsb_exists. split.
  - intros ([k' vs] & Hin & Hkv). simpl in Hkv.
    apply andb_true_iff in Hkv as [Hk Hv].
    apply String.eqb_eq in Hk. subst k'. apply bool_decide_eq_true in Hv.
    apply list_elem_of_In, elem_of_map in Hin as (k' & [= -> ->] & _).
    by apply elem_of_tag_values.
  - intros (row & Hin & Hk & Hv). exists (k, tag_values st k). split.
    + apply list_elem_of_In, elem_of_map. exists k. split; [done|].
      apply elem_of_get_run_tag_keys. eauto.
    + simpl. rewrite String.eqb_refl. simpl. apply bool_decide_eq_true.
      apply elem_of_tag_values. eauto.
Qed.

Lemma holds_true st k v :
  holds st k v = true <->
  exists r, r ∈ runs st /\ tags (dagster_run r) !! k = Some v.
Proof.
  unfold holds. rewrite existsb_exists. split.
  - intros (r & Hin & Hl). exists r. rewrite list_elem_of_In.
    by apply bool_decide_eq_true in Hl.
  - intros (r & Hin & Hl). exists r. rewrite <- list_elem_of_In.
    by rewrite bool_decide_eq_true.
Qed.

(** C1, as the test-suite has it: in every store reached from the empty one
    by the operations of the contract, [get_run_tags()] reports a value for
    a key exactly when some stored run currently holds that value for the
    key; a value that [add_run_tags] has overwritten stays reported only
    while another run holds it. *)
Theorem tag_index_reports_current_values (st : RunStorage) (k v : string) :
  reachable st -> reports st k v = holds st k v.
Proof.
  intros Hreach. apply reachable_invariants in Hreach as [_ Hidx].
  apply eq_true_iff_eq. rewrite reports_true, holds_true. split.
  - intros (row & Hin & <- & <-). apply Hidx in Hin as (r & Hr & _ & Hl).
    eauto.
  - intros (r & Hr & Hl). exists (mkTagRow (record_id r) k v).
    split; [|done]. apply Hidx. exists r. done.
Qed.

(** C1, the claim as worded fails: in [test_add_run_tags] the value ["val2"]
    is assigned to ["tag1"] on the first run and then overwritten by
    ["val3"]; no run holds it any more and [get_run_tags()] does not report
    it. *)
Lemma overwritten_value_not_reported :
  ~ (forall (ops : list operation) (k v : string),
        (k, v) ∈ ever_assigned empty_storage ops ->
        reports (replay empty_storage ops) k v = true).
Proof.
  intros Hclaim.
  specialize (Hclaim (add_run_tags_history "one" "two") "tag1" "val2").
  assert (Hin : ("tag1", "val2")
                ∈ ever_assigned empty_storage (add_run_tags_history "one" "two")).
  { apply (bool_decide_unpack _). vm_compute. exact I. }
  specialize (Hclaim Hin). vm_compute in Hclaim. discriminate Hclaim.
Qed.

Lemma tag_index_reports_current_values_witness :
  let st := replay empty_storage (add_run_tags_history "one" "two") in
  reachable st /\ reports st "tag1" "val3" = holds st "tag1" "val3".
Proof.
  intros st.
  assert (Hreach : reachable st)
    by (exists (add_run_tags_history "one" "two"); reflexivity).
  split; [exact Hreach|].
  exact (tag_index_reports_current_values st "tag1" "val3" Hreach).
Defined.

(** *** Cursors *)

Lemma take_filter_last {A : Type} (P : A -> bool) (l : list A) :
  forall (n : nat) (x : A),
    last (take n (List.filter P l)) = Some x ->
    exists l1 l2,
      l = l1 ++ x :: l2
      /\ take n (List.filter P l) = List.filter P l1 ++ [x]
      /\ List.filter P l = List.filter P l1 ++ x :: List.filter P l2.
Proof.
  induction l as [|a l IH]; intros n x Hlast; simpl in *.
  - by rewrite take_nil in Hlast.
  - destruct (P a) eqn:Pa.
    + destruct n as [|n]; simpl in Hlast; [done|].
      destruct (take n (List.filter P l)) as [|b t] eqn:Ht.
      * simpl in Hlast. injection Hlast as <-.
        exists [], l. simpl. by rewrite Ht.
      * assert (Hl : last (take n (List.filter P l)) = Some x)
          by (rewrite Ht; exact Hlast).
        destruct (IH n x Hl) as (l1 & l2 & -> & Htake & Hfilter).
        exists (a :: l1), l2. simpl. rewrite Pa. simpl.
        rewrite Htake, Hfilter. done.
    + destruct (IH n x Hlast) as (l1 & l2 & -> & Htake & Hfilter).
      exists (a :: l1), l2. simpl. rewrite Pa. done.
Qed.

Lemma after_cursor_split (before : list RunRecord) x after :
  NoDup (map record_id (before ++ x :: after)) ->
  after_cursor (record_id x) (before ++ x :: after) = after.
Proof.
  induction before as [|b before IH]; simpl; intros Hnd.
  - by rewrite String.eqb_refl.
  - apply NoDup_cons in Hnd as [Hb Hnd].
    destruct (String.eqb (record_id b) (record_id x)) eqn:Heq; [|by apply IH].
    exfalso. apply Hb. apply String.eqb_eq in Heq. rewrite Heq.
    apply elem_of_map. exists x. split; [done|].
    apply elem_of_app. right. apply elem_of_cons. by left.
Qed.

Lemma get_run_records_candidates st f cursor limit :
  get_run_records st f cursor limit
  = match limit with
    | Some n => take n (List.filter (matches f) (candidates st cursor))
    | None => List.filter (matches f) (candidates st cursor)
    end.
Proof. by destruct cursor. Qed.

Lemma last_map {A B : Type} (g : A -> B) (l : list A) :
  last (map g l) = option_map g (last l).
Proof.
  induction l as [|a [|b l] IH]; [done..|]. exact IH.
Qed.

Lemma walk_candidates st f limit :
  unique_ids st -> (0 < limit)%nat ->
  forall fuel cursor before after,
    runs st = before ++ after ->
    candidates st cursor = after ->
    (length after < fuel)%nat ->
    walk fuel st f limit cursor
    = map dagster_run (List.filter (matches f) after).
Proof.
  intros Hids Hlimit. induction fuel as [|fuel IH];
    intros cursor before after Hruns Hcand Hfuel; [lia|].
  simpl. unfold get_runs. rewrite get_run_records_candidates, Hcand.
  rewrite last_map.
  destruct (last (take limit (List.filter (matches f) after))) as [x|] eqn:Hl;
    simpl.
  - destruct (take_filter_last _ _ _ _ Hl) as (l1 & l2 & -> & Htake & Hfilter).
    rewrite (IH (Some (run_id (dagster_run x))) (before ++ l1 ++ [x]) l2).
    + rewrite Htake, Hfilter, <- map_app, <- app_assoc. done.
    + rewrite Hruns, <- !app_assoc. done.
    + simpl. rewrite Hruns, app_assoc.
      apply (after_cursor_split (before ++ l1) x l2).
      unfold unique_ids in Hids. by rewrite Hruns, app_assoc in Hids.
    + rewrite length_app in Hfuel. simpl in Hfuel. lia.
  - apply last_None in Hl.
    destruct (List.filter (matches f) after) as [|y l'] eqn:Hf; [done|].
    destruct limit; [lia|]. done.
Qed.

(** C4: in a store reached by the operations of the contract, [get_runs]
    with the id of a stored run as its cursor returns exactly the matching
    runs that come after that run in the default order, most recently
    created first; and walking [get_runs] with a fixed positive limit, each
    page's last run id the cursor of the next, yields every matching run
    once, in that order. *)
Theorem cursor_pages_enumerate (st : RunStorage) (f : RunsFilter) :
  reachable st ->
  (forall before r after,
      runs st = before ++ r :: after ->
      get_runs st f (Some (record_id r)) None
      = map dagster_run (List.filter (matches f) after))
  /\ (forall limit, (0 < limit)%nat ->
      let all := walk (S (length (runs st))) st f limit None in
      all = get_runs st f None None
      /\ all = map dagster_run (List.filter (matches f) (runs st))
      /\ NoDup (map run_id all)).
Proof.
  intros Hreach. apply reachable_invariants in Hreach as [Hids _]. split.
  - intros before r after Hruns. unfold get_runs, get_run_records.
    rewrite Hruns, after_cursor_split; [done|].
    unfold unique_ids in Hids. by rewrite Hruns in Hids.
  - intros limit Hlimit all.
    assert (Hall : all = map dagster_run (List.filter (matches f) (runs st))).
    { subst all. apply (walk_candidates st f limit Hids Hlimit _ None []);
        [done|done|lia]. }
    split; [exact Hall|]. split; [exact Hall|].
    rewrite Hall, map_map.
    apply (NoDup_filter_bool record_id (matches f) (runs st) Hids).
Qed.

Lemma cursor_pages_enumerate_witness :
  let st := cursored_storage in
  let f := filter_by_statuses [STARTED] in
  reachable st
  /\ ((forall before r after,
         runs st = before ++ r :: after ->
         get_runs st f (Some (record_id r)) None
         = map dagster_run (List.filter (matches f) after))
      /\ (forall limit, (0 < limit)%nat ->
          let all := walk (S (length (runs st))) st f limit None in
          all = get_runs st f None None
          /\ all = map dagster_run (List.filter (matches f) (runs st))
          /\ NoDup (map run_id all))).
Proof.
  intros st f.
  assert (Hreach : reachable st) by (eexists; reflexivity).
  split; [exact Hreach|].
  exact (cursor_pages_enumerate st f Hreach).
Defined.

(** ** The model of hourly and daily definitions *)

Lemma dates_round_trip_spec n d :
  dates_round_trip n d = true ->
  forall i, d <= i < d + Z.of_nat n ->
    Calendar.parse_date (Calendar.format_date i) = Some i.
Proof.
  revert d. induction n as [|n IH]; intros d Hall i Hi; [lia|].
  simpl in Hall. apply andb_true_iff in Hall as [Hd Hrest].
  destruct (decide (i = d)) as [->|Hne].
  - by apply bool_decide_eq_true in Hd.
  - apply (IH (d + 1) Hrest). lia.
Qed.

Lemma parse_format_date (d : Z) :
  0 <= d < 47482 ->
  Calendar.parse_date (Calendar.format_date d) = Some d.
Proof.
  intros Hd.
  apply (dates_round_trip_spec (Z.to_nat 47482) 0); [|lia].
  vm_compute. reflexivity.
Qed.

Lemma digit_value_char (n : Z) :
  0 <= n <= 9 -> Calendar.digit_value (Calendar.digit_char n) = Some n.
Proof.
  intros Hn. destruct n as [|p|p]; [reflexivity| |lia].
  do 4 (try destruct p as [p|p|]; try reflexivity; try lia).
Qed.

Lemma parse_pad2 (acc n : Z) :
  0 <= n < 100 ->
  Calendar.parse_digits acc (Calendar.pad2 n) = Some (100 * acc + n).
Proof.
  intros Hn. unfold Calendar.pad2. simpl.
  rewrite !digit_value_char
    by (Z.to_euclidean_division_equations; lia).
  f_equal. Z.to_euclidean_division_equations. lia.
Qed.

(** The date fields are read from the first ten characters of a key. *)
Lemma parse_date_prefix (d : Z) (rest : string) :
  Calendar.parse_date (Calendar.format_date d +:+ rest)
  = Calendar.parse_date (Calendar.format_date d).
Proof.
  unfold Calendar.format_date.
  destruct (Calendar.civil_from_days d) as [[y m] dd].
  unfold Calendar.parse_date, Calendar.field, Calendar.pad4, Calendar.pad2.
  simpl. destruct rest; reflexivity.
Qed.

Lemma parse_time_suffix (d secs : Z) :
  0 <= secs < 86400 -> secs mod 3600 = 0 ->
  Calendar.parse_time
    (Calendar.format_date d +:+ "-" +:+ Calendar.format_time secs)
  = Some secs.
Proof.
  intros Hs Hmod. unfold Calendar.format_date.
  destruct (Calendar.civil_from_days d) as [[y m] dd].
  unfold Calendar.parse_time, Calendar.field, Calendar.format_time.
  change (substring 11 2 _) with (Calendar.pad2 (secs / 3600)).
  change (substring 14 2 _) with (Calendar.pad2 (secs / 60 mod 60)).
  rewrite !parse_pad2 by (Z.to_euclidean_division_equations; lia).
  f_equal. Z.to_euclidean_division_equations. lia.
Qed.

Lemma strftime_nonempty (s : ScheduleType) (t : datetime) :
  String.eqb (strftime s t) "" = false.
Proof.
  destruct s; unfold strftime, Calendar.format_date;
    destruct (Calendar.civil_from_days (t / 86400)) as [[y m] dd];
    reflexivity.
Qed.

(** Decoding the key of a tick of the schedule gives the tick back. *)
Lemma strptime_strftime (s : ScheduleType) (t : datetime) :
  0 <= t < calendar_end -> t mod period s = 0 ->
  strptime s (strftime s t) = Some t.
Proof.
  unfold calendar_end. intros Ht Htick.
  assert (Hday : Calendar.parse_date (Calendar.format_date (t / 86400))
                 = Some (t / 86400)).
  { apply parse_format_date. Z.to_euclidean_division_equations. lia. }
  destruct s; simpl in Htick; unfold strptime, strftime.
  - rewrite parse_date_prefix, Hday. cbn [mbind option_bind].
    rewrite parse_time_suffix
      by (Z.to_euclidean_division_equations; lia).
    cbn [mbind option_bind].
    assert (t / 86400 * 86400 + t mod 86400 = t) as Heq
      by (Z.to_euclidean_division_equations; lia).
    rewrite !Heq. by rewrite String.eqb_refl.
  - rewrite Hday. cbn [mbind option_bind].
    assert (t / 86400 * 86400 = t) as Heq
      by (Z.to_euclidean_division_equations; lia).
    rewrite !Heq. by rewrite String.eqb_refl.
Qed.

Lemma period_positive (s : ScheduleType) : 0 < period s.
Proof. destruct s; reflexivity. Qed.

Lemma tick_ceil_tick (s : ScheduleType) (t : Z) :
  t mod period s = 0 -> tick_ceil (period s) t = t.
Proof.
  unfold tick_ceil. destruct s; simpl; intros Ht;
    Z.to_euclidean_division_equations; lia.
Qed.

Lemma tick_ceil_le (s : ScheduleType) (x t : Z) :
  t mod period s = 0 -> x <= t -> tick_ceil (period s) x <= t.
Proof.
  unfold tick_ceil. destruct s; simpl; intros Ht Hx;
    Z.to_euclidean_division_equations; lia.
Qed.

Lemma tick_floor_ge (s : ScheduleType) (x t : Z) :
  t mod period s = 0 -> t <= x -> t <= x / period s * period s.
Proof.
  destruct s; simpl; intros Ht Hx; Z.to_euclidean_division_equations; lia.
Qed.

Lemma tick_floor_le (s : ScheduleType) (x : Z) :
  x / period s * period s <= x.
Proof. destruct s; simpl; Z.to_euclidean_division_equations; lia. Qed.

Lemma tick_shift (s : ScheduleType) (t k : Z) :
  t mod period s = 0 -> (t + k * period s) mod period s = 0.
Proof.
  intros Ht. rewrite Z.mod_add by (pose proof (period_positive s); lia).
  exact Ht.
Qed.

Section CronFacts.
Variable now : datetime.

Local Abbreviation ops := (cron_definition now).

Implicit Types (d : CronPartitionsDefinition) (t : datetime).

(** The first window of a definition that starts at or before the tick [t]
    and has a full window before [current_time]. *)
Lemma first_window_before d (current_time : option datetime) t :
  t mod period (schedule_type d) = 0 ->
  start_date d <= t ->
  t + period (schedule_type d) <= default now current_time ->
  exists fw, first_window now d current_time = Some fw
    /\ start fw <= t
    /\ end_ fw = start fw + period (schedule_type d).
Proof.
  intros Ht Hstart Hcur. unfold first_window.
  pose proof (tick_ceil_le (schedule_type d) (start_date d) t Ht Hstart) as Hle.
  rewrite (proj2 (Z.leb_le _ _)) by lia.
  eexists. split; [reflexivity|]. simpl. auto.
Qed.

Lemma last_window_after d (current_time : option datetime) t :
  t mod period (schedule_type d) = 0 ->
  start_date d <= t - period (schedule_type d) ->
  t <= default now current_time ->
  exists lw, last_window now d current_time = Some lw
    /\ t <= end_ lw
    /\ end_ lw <= default now current_time
    /\ start lw = end_ lw - period (schedule_type d).
Proof.
  intros Ht Hstart Hcur. unfold last_window.
  pose proof (period_positive (schedule_type d)) as Hp.
  destruct (first_window_before d current_time (t - period (schedule_type d)))
    as (fw & -> & _); [|done|lia|].
  { replace (t - period (schedule_type d))
      with (t + (-1) * period (schedule_type d)) by lia.
    by apply tick_shift. }
  eexists. split; [reflexivity|]. simpl.
  split; [by apply tick_floor_ge|]. split; [apply tick_floor_le|done].
Qed.

Lemma prev_window_tick d t :
  t mod period (schedule_type d) = 0 ->
  start_date d <= t - period (schedule_type d) ->
  t <= now ->
  prev_window now d t
  = Some (mkTimeWindow (t - period (schedule_type d)) t).
Proof.
  intros Ht Hstart Hnow. unfold prev_window, tick_before.
  pose proof (period_positive (schedule_type d)) as Hp.
  assert (Ht' : (t - period (schedule_type d)) mod period (schedule_type d) = 0).
  { replace (t - period (schedule_type d))
      with (t + (-1) * period (schedule_type d)) by lia.
    by apply tick_shift. }
  destruct (first_window_before d None (t - period (schedule_type d)))
    as (fw & -> & Hfw & _); [done|done|simpl; lia|].
  rewrite tick_ceil_tick by done.
  rewrite (proj2 (Z.ltb_ge _ _)) by lia.
  f_equal. f_equal. lia.
Qed.

Lemma next_window_tick d t :
  t mod period (schedule_type d) = 0 ->
  start_date d <= t ->
  t + period (schedule_type d) <= now ->
  next_window now d t
  = Some (mkTimeWindow t (t + period (schedule_type d))).
Proof.
  intros Ht Hstart Hnow. unfold next_window.
  pose proof (period_positive (schedule_type d)) as Hp.
  destruct (last_window_after d None (t + period (schedule_type d)))
    as (lw & -> & Hlw & _); [| lia | done |].
  { replace (t + period (schedule_type d))
      with (t + 1 * period (schedule_type d)) by lia.
    by apply tick_shift. }
  rewrite tick_ceil_tick by done.
  destruct (t >=? end_ lw) eqn:Hge; [lia|]. reflexivity.
Qed.

Lemma offsetted_loop_backward d (offset : Z) (n : nat) :
  offset < 0 ->
  forall t,
    t mod period (schedule_type d) = 0 ->
    start_date d <= t - Z.of_nat n * period (schedule_type d) ->
    t <= now ->
    offsetted_loop (H := ops) d n offset t
    = Some (t - Z.of_nat n * period (schedule_type d)).
Proof.
  intros Hoff. pose proof (period_positive (schedule_type d)) as Hp.
  induction n as [|n IH]; intros t Ht Hstart Hnow; simpl offsetted_loop.
  - f_equal. lia.
  - rewrite (proj2 (Z.ltb_lt _ _)) by lia.
    change (get_prev_partition_window d t) with (prev_window now d t).
    rewrite prev_window_tick by (try done; nia). cbn [start].
    rewrite IH; [f_equal; lia| |nia|lia].
    replace (t - period (schedule_type d))
      with (t + (-1) * period (schedule_type d)) by lia.
    by apply tick_shift.
Qed.

Lemma offsetted_loop_forward d (offset : Z) (n : nat) :
  0 <= offset ->
  forall t,
    t mod period (schedule_type d) = 0 ->
    start_date d <= t ->
    t + Z.of_nat n * period (schedule_type d) <= now ->
    offsetted_loop (H := ops) d n offset t
    = Some (t + Z.of_nat n * period (schedule_type d)).
Proof.
  intros Hoff. pose proof (period_positive (schedule_type d)) as Hp.
  induction n as [|n IH]; intros t Ht Hstart Hnow; simpl offsetted_loop.
  - f_equal. lia.
  - rewrite (proj2 (Z.ltb_ge _ _)) by lia.
    change (get_next_partition_window d t) with (next_window now d t).
    rewrite next_window_tick by (try done; nia). cbn [end_].
    rewrite IH; [f_equal; lia| |lia|nia].
    replace (t + period (schedule_type d))
      with (t + 1 * period (schedule_type d)) by lia.
    by apply tick_shift.
Qed.

Lemma offsetted_datetime_interior d t (offset : Z) :
  t mod period (schedule_type d) = 0 ->
  start_date d <= t ->
  start_date d <= t + offset * period (schedule_type d) ->
  t <= now ->
  t + offset * period (schedule_type d) <= now ->
  _offsetted_datetime (H := ops) d t offset
  = Some (t + offset * period (schedule_type d)).
Proof.
  intros Ht Hs Hs' Hn Hn'. unfold _offsetted_datetime.
  pose proof (period_positive (schedule_type d)) as Hp.
  destruct (Z.lt_ge_cases offset 0) as [Hneg|Hpos].
  - rewrite offsetted_loop_backward; [f_equal; nia|done|done| |done].
    rewrite Zabs2Nat.id_abs, Z.abs_neq by lia. nia.
  - rewrite offsetted_loop_forward; [f_equal; nia|done|done|done|].
    rewrite Zabs2Nat.id_abs, Z.abs_eq by lia. nia.
Qed.

Lemma key_for_timestamp_tick d t :
  t mod period (schedule_type d) = 0 ->
  key_for_timestamp d t false = strftime (schedule_type d) t
  /\ key_for_timestamp d t true
     = strftime (schedule_type d) (t - period (schedule_type d)).
Proof.
  intros Ht. unfold key_for_timestamp, tick_before.
  rewrite tick_ceil_tick by done. simpl.
  replace (t - period (schedule_type d) + period (schedule_type d)) with t
    by lia.
  destruct (t >? t) eqn:Hgt; [lia|]. done.
Qed.

(** Inside both definitions the window arithmetic is the shift. *)
Lemma map_time_window_interior (current_time : option datetime)
    (from_def to_def : CronPartitionsDefinition) (so eo : Z) (w : TimeWindow) :
  schedule_type from_def = schedule_type to_def ->
  interior now current_time from_def to_def so eo w ->
  map_time_window (H := ops) from_def to_def so eo w
  = Ok (Some (shift_window (period (schedule_type from_def)) so eo w)).
Proof.
  intros Hsched (Hx & Hy & Hxy & Hshift & Hlo & Hlo' & Hhi & Hhi').
  pose proof (period_positive (schedule_type from_def)) as Hp.
  unfold calendar_end in *.
  unfold map_time_window.
  rewrite !offsetted_datetime_interior by (try done; lia).
  cbn [is_not_None orb]. unfold timestamp.
  change (get_partition_key_for_timestamp to_def) with (key_for_timestamp to_def).
  assert (Hx' : (start w + so * period (schedule_type from_def))
                mod period (schedule_type to_def) = 0)
    by (rewrite <- Hsched; by apply tick_shift).
  assert (Hy' : (end_ w + eo * period (schedule_type from_def))
                mod period (schedule_type to_def) = 0)
    by (rewrite <- Hsched; by apply tick_shift).
  rewrite (proj1 (key_for_timestamp_tick to_def _ Hx')).
  rewrite (proj2 (key_for_timestamp_tick to_def _ Hy')).
  unfold truthy. rewrite !strftime_nonempty.
  cbn [negb default from_option id].
  change (start_time_for_partition_key to_def)
    with (strptime (schedule_type to_def)).
  change (end_time_for_partition_key to_def)
    with (fun key => t ← strptime (schedule_type to_def) key;
                     Some (t + period (schedule_type to_def))).
  cbn beta. rewrite <- !Hsched.
  assert (Hgap : period (schedule_type from_def)
                 <= end_ w + eo * period (schedule_type from_def)
                    - (start w + so * period (schedule_type from_def))).
  { destruct (schedule_type from_def); simpl in *;
      Z.to_euclidean_division_equations; lia. }
  rewrite (strptime_strftime (schedule_type from_def)
             (start w + so * period (schedule_type from_def)));
    [|unfold calendar_end; lia|by apply tick_shift].
  rewrite (strptime_strftime (schedule_type from_def)
             (end_ w + eo * period (schedule_type from_def)
              - period (schedule_type from_def)));
    [|unfold calendar_end; lia|].
  - cbn [mbind option_bind parsed result_bind].
    rewrite (proj2 (Z.ltb_lt _ _)) by lia.
    unfold shift_window. do 3 f_equal. lia.
  - replace (end_ w + eo * period (schedule_type from_def)
             - period (schedule_type from_def))
      with (end_ w + (eo - 1) * period (schedule_type from_def)) by lia.
    by apply tick_shift.
Qed.

Lemma map_time_windows_interior (current_time : option datetime)
    (from_def to_def : CronPartitionsDefinition) (so eo : Z)
    (ws : list TimeWindow) :
  schedule_type from_def = schedule_type to_def ->
  Forall (interior now current_time from_def to_def so eo) ws ->
  map_time_windows (H := ops) from_def to_def so eo ws
  = Ok (map (shift_window (period (schedule_type from_def)) so eo) ws).
Proof.
  intros Hsched Hall. induction Hall as [|w ws Hw Hws IH]; [done|].
  cbn [map_time_windows map].
  rewrite (map_time_window_interior current_time) by done.
  cbn [mbind result_bind]. rewrite IH. reflexivity.
Qed.

(** Clipping leaves the shift of an interior window as it is. *)
Lemma clip_interior (current_time : option datetime)
    (from_def to_def : CronPartitionsDefinition) (so eo : Z) (w : TimeWindow) :
  schedule_type from_def = schedule_type to_def ->
  interior now current_time from_def to_def so eo w ->
  clip_time_window (first_window now to_def current_time)
    (last_window now to_def current_time)
    (shift_window (period (schedule_type from_def)) so eo w)
  = Some (shift_window (period (schedule_type from_def)) so eo w).
Proof.
  intros Hsched (Hx & Hy & Hxy & Hshift & Hlo & Hlo' & Hhi & Hhi').
  pose proof (period_positive (schedule_type from_def)) as Hp.
  set (p := period (schedule_type from_def)) in *.
  assert (Hx' : (start w + so * p) mod period (schedule_type to_def) = 0)
    by (rewrite <- Hsched; by apply tick_shift).
  assert (Hy' : (end_ w + eo * p) mod period (schedule_type to_def) = 0)
    by (rewrite <- Hsched; by apply tick_shift).
  assert (Hgap : p <= end_ w + eo * p - (start w + so * p)).
  { subst p. rewrite <- Hsched in Hx', Hy'.
    destruct (schedule_type from_def); simpl in *;
      Z.to_euclidean_division_equations; lia. }
  destruct (first_window_before to_def current_time (start w + so * p))
    as (fw & -> & Hfw & Hfw'); [done|lia|rewrite <- Hsched; fold p; lia|].
  destruct (last_window_after to_def current_time (end_ w + eo * p))
    as (lw & -> & Hlw & _ & Hlw'); [done|rewrite <- Hsched; fold p; lia|lia|].
  rewrite <- Hsched in Hfw', Hlw'. fold p in Hfw', Hlw'.
  unfold clip_time_window, shift_window. cbn [start end_].
  rewrite (proj2 (Z.leb_le _ _)) by lia.
  destruct (end_ w + eo * p >=? end_ fw) eqn:Hge; [|lia].
  cbn [andb]. f_equal. f_equal; lia.
Qed.

Lemma shift_window_zero (p : Z) (ws : list TimeWindow) :
  map (shift_window p 0 0) ws = ws.
Proof.
  induction ws as [|[x y] ws IH]; [done|].
  cbn [map]. rewrite IH. unfold shift_window. cbn [start end_].
  f_equal. f_equal; lia.
Qed.

(** On interior windows the mapping between two definitions of one schedule
    and timezone is the shift by the offsets, strict or not. *)
Lemma _map_partitions_interior (current_time : option datetime)
    (from_def to_def : CronPartitionsDefinition)
    (subset : TimeWindowPartitionsSubset CronPartitionsDefinition)
    (so eo : Z) (strict : bool) :
  schedule_type from_def = schedule_type to_def ->
  tz from_def = tz to_def ->
  partitions_def subset = from_def ->
  Forall (interior now current_time from_def to_def so eo)
    (included_time_windows subset) ->
  exists mapped,
    _map_partitions (H := ops) from_def to_def subset so eo strict
      current_time = Ok mapped
    /\ partitions_def mapped = to_def
    /\ included_time_windows mapped
       = map (shift_window (period (schedule_type from_def)) so eo)
           (included_time_windows subset).
Proof.
  intros Hsched Htz Hdef Hall.
  destruct (reaches_clipping (H := ops) from_def to_def so eo) eqn:Hr.
  - rewrite _map_partitions_clipping by done.
    rewrite (map_time_windows_interior current_time) by done.
    cbn [mbind result_bind].
    assert (Hclip :
      filter_time_windows
        (get_first_partition_window (TimeWindowPartitionsDefinition := ops)
           to_def current_time)
        (get_last_partition_window (TimeWindowPartitionsDefinition := ops)
           to_def current_time)
        (map (shift_window (period (schedule_type from_def)) so eo)
           (included_time_windows subset))
      = map (shift_window (period (schedule_type from_def)) so eo)
          (included_time_windows subset)).
    { unfold filter_time_windows.
      change (get_first_partition_window to_def current_time)
        with (first_window now to_def current_time).
      change (get_last_partition_window to_def current_time)
        with (last_window now to_def current_time).
      induction Hall as [|w ws Hw Hws IH]; [done|].
      cbn [map omap list_omap].
      rewrite clip_interior by done. by rewrite IH. }
    cbv zeta. rewrite Hclip. rewrite bool_decide_eq_true_2 by done.
    rewrite andb_false_r. eexists. split; [reflexivity|]. done.
  - unfold reaches_clipping in Hr. unfold _map_partitions.
    change (cron_schedule from_def) with (cron_of (schedule_type from_def)) in *.
    change (cron_schedule to_def) with (cron_of (schedule_type to_def)) in *.
    change (timezone to_def) with (tz to_def) in *.
    change (timezone from_def) with (tz from_def) in *.
    rewrite Hsched, Htz, !String.eqb_refl in *.
    rewrite andb_false_r in *. cbn [negb andb] in *.
    apply negb_false_iff in Hr. rewrite Hr.
    apply andb_true_iff in Hr as [Hr Heo].
    apply andb_true_iff in Hr as [Heq Hso].
    apply Z.eqb_eq in Hso, Heo. subst so eo.
    apply bool_decide_eq_true in Heq.
    exists subset. split; [done|].
    split; [congruence|]. by rewrite shift_window_zero.
Qed.

Lemma interior_back (current_time : option datetime)
    (from_def to_def : CronPartitionsDefinition) (so eo : Z) (w : TimeWindow) :
  schedule_type from_def = schedule_type to_def ->
  interior now current_time from_def to_def so eo w ->
  interior now current_time to_def from_def (- so) (- eo)
    (shift_window (period (schedule_type from_def)) so eo w).
Proof.
  intros Hsched (Hx & Hy & Hxy & Hshift & Hlo & Hlo' & Hhi & Hhi').
  unfold interior, shift_window. cbn [start end_]. rewrite <- Hsched.
  repeat split; try lia; by apply tick_shift.
Qed.

Lemma shift_window_back (p so eo : Z) (ws : list TimeWindow) :
  map (shift_window p (- so) (- eo)) (map (shift_window p so eo) ws) = ws.
Proof.
  induction ws as [|[x y] ws IH]; [done|].
  cbn [map]. rewrite IH. unfold shift_window. cbn [start end_].
  f_equal. f_equal; lia.
Qed.

(** C3, as the code has it: between two definitions of one schedule and
    timezone, mapping a subset in the downstream direction with offsets
    [(a, b)] and the result back in the upstream direction with offsets
    [(-a, -b)] returns the windows of the original subset whenever every
    window and its shift are non-empty and lie inside what both definitions
    hold at the wall clock and at [current_time]; no more is promised: a
    window the shift empties is dropped, and so is what the clipping cuts. *)
Theorem offset_round_trip (current_time : option datetime)
    (upstream_def downstream_def : CronPartitionsDefinition)
    (subset : TimeWindowPartitionsSubset CronPartitionsDefinition)
    (a b : Z) :
  schedule_type upstream_def = schedule_type downstream_def ->
  tz upstream_def = tz downstream_def ->
  partitions_def subset = upstream_def ->
  Forall (interior now current_time upstream_def downstream_def a b)
    (included_time_windows subset) ->
  exists downstream_subset upstream_subset,
    _map_partitions (H := ops) upstream_def downstream_def subset a b false
      current_time = Ok downstream_subset
    /\ _map_partitions (H := ops) downstream_def upstream_def
         downstream_subset (- a) (- b) true current_time
       = Ok upstream_subset
    /\ partitions_def upstream_subset = upstream_def
    /\ included_time_windows upstream_subset = included_time_windows subset.
Proof.
  intros Hsched Htz Hdef Hall.
  destruct (_map_partitions_interior current_time upstream_def downstream_def
              subset a b false Hsched Htz Hdef Hall)
    as (ds & Hds & Hds_def & Hds_windows).
  assert (Hback :
    Forall (interior now current_time downstream_def upstream_def (- a) (- b))
      (included_time_windows ds)).
  { rewrite Hds_windows. apply Forall_forall. intros w' Hw'.
    apply elem_of_map in Hw' as (w & -> & Hw).
    apply interior_back; [done|].
    rewrite Forall_forall in Hall. by apply Hall. }
  destruct (_map_partitions_interior current_time downstream_def upstream_def
              ds (- a) (- b) true (eq_sym Hsched) (eq_sym Htz) Hds_def Hback)
    as (us & Hus & Hus_def & Hus_windows).
  exists ds, us. split; [done|]. split; [done|]. split; [done|].
  rewrite Hus_windows, Hds_windows, <- Hsched. apply shift_window_back.
Qed.

(** C5: between two daily definitions of one timezone that both start on or
    before 2022-07-03, once the partition "2022-07-04" is complete at the
    wall clock and at [current_time], the mapping with [start_offset = -1]
    and [end_offset = 0] takes the downstream partition "2022-07-04" to
    exactly the upstream partitions "2022-07-03" and "2022-07-04". *)
Theorem july_fourth_upstream (current_time : option datetime)
    (downstream_start upstream_start : datetime) (zone : string) :
  let downstream_def := mkCronDef DAILY downstream_start zone in
  let upstream_def := mkCronDef DAILY upstream_start zone in
  0 <= downstream_start <= 1656806400 ->
  0 <= upstream_start <= 1656806400 ->
  1656979200 <= now ->
  1656979200 <= default now current_time ->
  exists downstream_subset upstream_subset,
    subset_with_partition_key (H := ops) downstream_def "2022-07-04"
    = Ok downstream_subset
    /\ get_upstream_partitions_for_partitions (H := ops) (mkMapping (-1) 0)
         (Some (TimeWindowSubset downstream_subset))
         (TimeWindowDef upstream_def) current_time
       = Ok upstream_subset
    /\ get_partition_keys (H := ops) upstream_subset
       = ["2022-07-03"; "2022-07-04"].
Proof.
  intros downstream_def upstream_def Hdown Hup Hnow Hcur.
  set (subset := mkSubset downstream_def 1%nat
                   [mkTimeWindow 1656892800 1656979200]).
  assert (Hsubset : subset_with_partition_key (H := ops) downstream_def
                      "2022-07-04" = Ok subset)
    by (vm_compute; reflexivity).
  destruct (_map_partitions_interior current_time downstream_def upstream_def
              subset (-1) 0 true)
    as (us & Hus & Hus_def & Hus_windows); [done|done|done| |].
  { constructor; [|constructor].
    unfold interior, calendar_end. cbn [start end_ schedule_type period
      start_date downstream_def upstream_def].
    repeat split; try lia; reflexivity. }
  exists subset, us. split; [done|]. split; [exact Hus|].
  unfold get_partition_keys. rewrite Hus_def, Hus_windows.
  vm_compute. reflexivity.
Qed.
End CronFacts.

(** C3, the claim as worded fails: between two equal daily definitions the
    partition "2022-07-04", far from either end of what they hold, mapped
    downstream with offsets (+1, 0) becomes an empty window and is dropped,
    so the way back with offsets (-1, 0) returns the empty subset, which
    does not cover the instant the original covers. *)
Lemma round_trip_loses_partition :
  ~ (forall (upstream_def downstream_def : CronPartitionsDefinition)
       (subset downstream_subset upstream_subset
          : TimeWindowPartitionsSubset CronPartitionsDefinition)
       (a b : Z) (current_time : option datetime),
        schedule_type upstream_def = schedule_type downstream_def ->
        tz upstream_def = tz downstream_def ->
        partitions_def subset = upstream_def ->
        _map_partitions upstream_def downstream_def subset a b false
          current_time = Ok downstream_subset ->
        _map_partitions downstream_def upstream_def downstream_subset
          (- a) (- b) true current_time = Ok upstream_subset ->
        forall t,
          covers (included_time_windows subset) t = true ->
          covers (included_time_windows upstream_subset) t = true).
Proof.
  intros Hclaim.
  specialize (Hclaim (daily "2020-01-01") (daily "2020-01-01")
                july_fourth_subset
                (mkSubset (daily "2020-01-01") 0%nat [])
                (mkSubset (daily "2020-01-01") 0%nat [])
                1 0 None eq_refl eq_refl eq_refl).
  assert (Hcovers : covers [] 1656892800 = true).
  { apply Hclaim; vm_compute; reflexivity. }
  discriminate Hcovers.
Qed.

Lemma offset_round_trip_witness :
  let d := daily "2020-01-01" in
  schedule_type d = schedule_type d
  /\ tz d = tz d
  /\ partitions_def july_fourth_subset = d
  /\ Forall (interior scenario_now None d d (-1) 0)
       (included_time_windows july_fourth_subset)
  /\ exists downstream_subset upstream_subset,
       _map_partitions (H := cron_definition scenario_now) d d
         july_fourth_subset (-1) 0 false None = Ok downstream_subset
       /\ _map_partitions (H := cron_definition scenario_now) d d
            downstream_subset (- -1) (- 0) true None = Ok upstream_subset
       /\ partitions_def upstream_subset = d
       /\ included_time_windows upstream_subset
          = included_time_windows july_fourth_subset.
Proof.
  intros d.
  assert (Hall : Forall (interior scenario_now None d d (-1) 0)
                   (included_time_windows july_fourth_subset)).
  { constructor; [|constructor]. vm_compute.
    repeat split; congruence. }
  split; [reflexivity|]. split; [reflexivity|]. split; [reflexivity|].
  split; [exact Hall|].
  exact (offset_round_trip scenario_now None d d july_fourth_subset (-1) 0
           eq_refl eq_refl eq_refl Hall).
Defined.

Lemma july_fourth_upstream_witness :
  let downstream_def := mkCronDef DAILY 1577836800 "UTC" in
  let upstream_def := mkCronDef DAILY 1577836800 "UTC" in
  0 <= 1577836800 <= 1656806400
  /\ 0 <= 1577836800 <= 1656806400
  /\ 1656979200 <= scenario_now
  /\ 1656979200 <= default scenario_now None
  /\ exists downstream_subset upstream_subset,
       subset_with_partition_key (H := cron_definition scenario_now)
         downstream_def "2022-07-04" = Ok downstream_subset
       /\ get_upstream_partitions_for_partitions
            (H := cron_definition scenario_now) (mkMapping (-1) 0)
            (Some (TimeWindowSubset downstream_subset))
            (TimeWindowDef upstream_def) None
          = Ok upstream_subset
       /\ get_partition_keys (H := cron_definition scenario_now)
            upstream_subset
          = ["2022-07-03"; "2022-07-04"].
Proof.
  intros downstream_def upstream_def.
  assert (H1 : 0 <= 1577836800 <= 1656806400) by lia.
  assert (H2 : 1656979200 <= scenario_now) by (unfold scenario_now; lia).
  assert (H3 : 1656979200 <= default scenario_now None)
    by (unfold scenario_now; simpl; lia).
  split; [exact H1|]. split; [exact H1|]. split; [exact H2|].
  split; [exact H3|].
  exact (july_fourth_upstream scenario_now None 1577836800 1577836800 "UTC"
           H1 H1 H2 H3).
Defined.

(** Outside the clipping: when the start of a window is walked off the first
    partition of the source definition and the target definition holds no
    window yet, the window arithmetic itself fails on the missing first
    window, in the downstream direction too; with a target that holds
    windows the same call returns the empty subset. *)
Example downstream_without_target_window :
  get_downstream_partitions_for_partitions (mkMapping 1 0)
    (TimeWindowSubset first_day_subset)
    (Some (TimeWindowDef (daily "2030-01-01"))) None
  = Raise AttributeError
  /\ get_downstream_partitions_for_partitions (mkMapping 1 0)
       (TimeWindowSubset first_day_subset)
       (Some (TimeWindowDef (daily "2021-01-01"))) None
     = Ok (mkSubset (daily "2021-01-01") 0%nat []).
Proof. split; vm_compute; reflexivity. Qed.

(** * Further properties of the mapping *)

Section MappingBehaviour.
Context {D : Type} `{TimeWindowPartitionsDefinition D}.

Implicit Types (from_def to_def : D) (subset : TimeWindowPartitionsSubset D).

(** Every error of [_map_partitions]: the two definition errors of its
    checks, the error for non-existent partitions in strict mode, and the
    two errors of the window arithmetic. *)
Lemma _map_partitions_raises from_def to_def subset so eo strict ct e :
  _map_partitions from_def to_def subset so eo strict ct = Raise e ->
  e = DagsterInvalidDefinitionError (cron_schedule_message from_def to_def)
  \/ e = DagsterInvalidDefinitionError "Timezones don't match"
  \/ (strict = true /\ exists tws, e = DagsterInvalidInvocationError tws)
  \/ e = AttributeError \/ e = ValueError.
Proof.
  unfold _map_partitions.
  destruct (_ && negb (String.eqb (cron_schedule from_def) _));
    [intros [= <-]; auto|].
  destruct (negb (String.eqb (timezone to_def) _)); [intros [= <-]; auto|].
  destruct (_ && (eo =? 0)); [discriminate|].
  destruct (map_time_windows _ _ _ _ _) as [tws|e'] eqn:Hm; simpl.
  - destruct strict; simpl; [|discriminate].
    case_bool_decide; simpl; [discriminate|].
    intros [= <-]. right. right. left. eauto.
  - intros [= <-]. apply map_time_windows_raises in Hm as [->| ->]; auto.
Qed.

(** X1: mapping a subset onto its own definition with zero offsets returns
    the very subset, in strict mode too and whatever [current_time] is: the
    shortcut neither walks, clips nor checks the windows.  Both public
    methods take it. *)
Theorem identity_mapping_returns_subset subset (strict : bool)
    (current_time : option datetime) :
  _map_partitions (partitions_def subset) (partitions_def subset) subset 0 0
    strict current_time = Ok subset
  /\ get_upstream_partitions_for_partitions (mkMapping 0 0)
       (Some (TimeWindowSubset subset)) (TimeWindowDef (partitions_def subset))
       current_time = Ok subset
  /\ get_downstream_partitions_for_partitions (mkMapping 0 0)
       (TimeWindowSubset subset) (Some (TimeWindowDef (partitions_def subset)))
       current_time = Ok subset.
Proof.
  assert (Hid : forall s, _map_partitions (partitions_def subset)
                            (partitions_def subset) subset 0 0 s current_time
                          = Ok subset).
  { intros s. unfold _map_partitions. simpl.
    rewrite String.eqb_refl. simpl.
    by rewrite bool_decide_eq_true_2. }
  split; [apply Hid|]. split; simpl; apply Hid.
Qed.

(** X3: [_map_partitions] raises a definition error in exactly two cases,
    checked in this order and before any window is looked at: an offset is
    non-zero while the cron schedules differ (the message names both
    schedules), or else the timezones differ. *)
Theorem definition_errors_characterised from_def to_def subset (so eo : Z)
    (strict : bool) (current_time : option datetime) (msg : string) :
  _map_partitions from_def to_def subset so eo strict current_time
  = Raise (DagsterInvalidDefinitionError msg)
  <-> ((so <> 0 \/ eo <> 0)
       /\ cron_schedule from_def <> cron_schedule to_def
       /\ msg = cron_schedule_message from_def to_def)
      \/ (~ ((so <> 0 \/ eo <> 0)
             /\ cron_schedule from_def <> cron_schedule to_def)
          /\ timezone to_def <> timezone from_def
          /\ msg = "Timezones don't match").
Proof.
  assert (Hoff : (negb (so =? 0) || negb (eo =? 0)) = true
                 <-> so <> 0 \/ eo <> 0).
  { rewrite orb_true_iff, !negb_true_iff, !Z.eqb_neq. done. }
  assert (Hcron : negb (String.eqb (cron_schedule from_def)
                          (cron_schedule to_def)) = true
                  <-> cron_schedule from_def <> cron_schedule to_def).
  { rewrite negb_true_iff. apply String.eqb_neq. }
  unfold _map_partitions.
  destruct ((negb (so =? 0) || negb (eo =? 0))
            && negb (String.eqb (cron_schedule from_def)
                       (cron_schedule to_def))) eqn:Hfirst.
  - apply andb_true_iff in Hfirst as [Ho Hc].
    apply Hoff in Ho. apply Hcron in Hc. split.
    + intros [= <-]. left. done.
    + intros [(_ & _ & ->)|(Hnot & _)]; [done|]. exfalso. by apply Hnot.
  - assert (Hnot : ~ ((so <> 0 \/ eo <> 0)
                      /\ cron_schedule from_def <> cron_schedule to_def)).
    { intros [Ho Hc]. apply Hoff in Ho. apply Hcron in Hc.
      rewrite Ho, Hc in Hfirst. discriminate. }
    destruct (negb (String.eqb (timezone to_def) (timezone from_def)))
      eqn:Hsecond.
    + apply negb_true_iff, String.eqb_neq in Hsecond. split.
      * intros [= <-]. right. done.
      * intros [(Ho & Hc & _)|(_ & _ & ->)]; [|done]. exfalso. by apply Hnot.
    + assert (Hsame : ~ timezone to_def <> timezone from_def).
      { apply negb_false_iff, String.eqb_eq in Hsecond. intros Hne.
        by apply Hne. }
      split.
      * intros Hraise. exfalso.
        destruct (_ && (eo =? 0)); [discriminate|].
        destruct (map_time_windows _ _ _ _ _) as [tws|e] eqn:Hm;
          simpl in Hraise.
        -- destruct (strict && _); discriminate.
        -- injection Hraise as ->.
           apply map_time_windows_raises in Hm as [?|?]; discriminate.
      * intros [(Ho & Hc & _)|(_ & Hne & _)]; exfalso; tauto.
Qed.

(** X2: the public methods raise a check error exactly when an argument is
    not of the time-window kind, the upstream method looking at the subset
    first and the downstream method at the definition first; nothing past
    these checks raises one. *)
Theorem type_checks_characterised (self : TimeWindowPartitionMapping)
    (current_time : option datetime) (msg : string) :
  (forall (s : option (PartitionsSubset D)) (d : PartitionsDefinition D),
      get_upstream_partitions_for_partitions self s d current_time
      = Raise (CheckError msg)
      <-> ((forall tw, s <> Some (TimeWindowSubset tw))
           /\ msg = "downstream_partitions_subset must be a TimeWindowPartitionsSubset")
          \/ ((exists tw, s = Some (TimeWindowSubset tw))
              /\ d = OtherPartitionsDefinition
              /\ msg = "upstream_partitions_def must be a TimeWindowPartitionsDefinition"))
  /\ (forall (s : PartitionsSubset D) (d : option (PartitionsDefinition D)),
        get_downstream_partitions_for_partitions self s d current_time
        = Raise (CheckError msg)
        <-> ((forall td, d <> Some (TimeWindowDef td))
             /\ msg = "downstream_partitions_def must be a TimeWindowPartitionsDefinitions")
            \/ ((exists td, d = Some (TimeWindowDef td))
                /\ s = OtherPartitionsSubset
                /\ msg = "upstream_partitions_subset must be a TimeWindowPartitionsSubset")).
Proof.
  assert (Hnone : forall from_def to_def subset so eo strict,
            _map_partitions from_def to_def subset so eo strict current_time
            <> Raise (CheckError msg)).
  { intros from_def to_def subset so eo strict Hraise.
    apply _map_partitions_raises in Hraise
      as [?|[?|[[_ [tws ?]]|[?|?]]]]; discriminate. }
  split.
  - intros s d. unfold get_upstream_partitions_for_partitions.
    destruct s as [[tw|]|]; [destruct d as [td|]|..]; split.
    + intros Hraise. by apply Hnone in Hraise.
    + intros [[Hno _]|(_ & Hd & _)]; [by destruct (Hno tw)|discriminate].
    + intros [= <-]. right. eauto.
    + intros [[Hno _]|(_ & _ & ->)]; [by destruct (Hno tw)|done].
    + intros [= <-]. left. done.
    + intros [[_ ->]|([tw Htw] & _)]; [done|discriminate].
    + intros [= <-]. left. done.
    + intros [[_ ->]|([tw Htw] & _)]; [done|discriminate].
  - intros s d. unfold get_downstream_partitions_for_partitions.
    destruct d as [[td|]|]; [destruct s as [tw|]|..]; split.
    + intros Hraise. by apply Hnone in Hraise.
    + intros [[Hno _]|(_ & Hs & _)]; [by destruct (Hno td)|discriminate].
    + intros [= <-]. right. eauto.
    + intros [[Hno _]|(_ & _ & ->)]; [by destruct (Hno td)|done].
    + intros [= <-]. left. done.
    + intros [[_ ->]|([td Htd] & _)]; [done|discriminate].
    + intros [= <-]. left. done.
    + intros [[_ ->]|([td Htd] & _)]; [done|discriminate].
Qed.

Lemma map_time_windows_length from_def to_def so eo ws tws :
  map_time_windows from_def to_def so eo ws = Ok tws ->
  (length tws <= length ws)%nat.
Proof.
  revert tws. induction ws as [|w ws IH]; intros tws; simpl.
  - intros [= <-]. done.
  - destruct (map_time_window from_def to_def so eo w) as [o|e]; simpl;
      [|discriminate].
    destruct (map_time_windows from_def to_def so eo ws) as [tws'|e]; simpl;
      [|discriminate].
    specialize (IH tws' eq_refl).
    destruct o; intros [= <-]; simpl; lia.
Qed.

Lemma filter_time_windows_length first_window last_window tws :
  (length (filter_time_windows first_window last_window tws) <= length tws)%nat.
Proof.
  unfold filter_time_windows, omap.
  induction tws as [|w tws IH]; simpl; [done|].
  destruct (clip_time_window first_window last_window w); simpl; lia.
Qed.

(** X4: every window of the source subset contributes at most one window, so
    a result never holds more windows than the subset it came from; and once
    the checks pass, the empty subset maps to the empty subset of the target
    definition, in strict mode too and whether or not the target holds any
    window. *)
Theorem mapping_never_adds_windows from_def to_def subset (so eo : Z)
    (strict : bool) (current_time : option datetime) :
  (forall mapped,
      _map_partitions from_def to_def subset so eo strict current_time
      = Ok mapped ->
      (length (included_time_windows mapped)
       <= length (included_time_windows subset))%nat)
  /\ (included_time_windows subset = [] ->
      reaches_clipping from_def to_def so eo = true ->
      _map_partitions from_def to_def subset so eo strict current_time
      = Ok (mkSubset to_def 0%nat [])).
Proof.
  split.
  - intros mapped Hok.
    destruct (reaches_clipping from_def to_def so eo) eqn:Hr.
    + rewrite _map_partitions_clipping in Hok by done.
      destruct (map_time_windows from_def to_def so eo
                  (included_time_windows subset)) as [tws|e] eqn:Hm;
        simpl in Hok; [|discriminate].
      apply map_time_windows_length in Hm.
      destruct (strict && _); [discriminate|].
      injection Hok as <-. simpl.
      pose proof (filter_time_windows_length
                    (get_first_partition_window to_def current_time)
                    (get_last_partition_window to_def current_time) tws).
      lia.
    + destruct (_map_partitions_shortcut from_def to_def subset so eo strict
                  current_time Hr) as [[msg Hd]|Hsame].
      * congruence.
      * rewrite Hsame in Hok. injection Hok as <-. done.
  - intros Hempty Hr. rewrite _map_partitions_clipping by done.
    rewrite Hempty. simpl. by rewrite andb_false_r.
Qed.

Lemma elem_of_filter_time_windows first_window last_window tws w :
  w ∈ filter_time_windows first_window last_window tws ->
  exists tw, tw ∈ tws /\ clip_time_window first_window last_window tw = Some w.
Proof.
  unfold filter_time_windows. intros Hw.
  apply list_elem_of_omap in Hw as (tw & Htw & Hclip). eauto.
Qed.

(** X5: a result that went through the clipping belongs to the target
    definition and every window of it lies between the start of the first
    and the end of the last window the target holds at [current_time],
    inside the computed window it was cut from; a target without such
    windows gives no window at all. *)
Theorem mapped_windows_within_target from_def to_def subset (so eo : Z)
    (strict : bool) (current_time : option datetime) mapped :
  reaches_clipping from_def to_def so eo = true ->
  _map_partitions from_def to_def subset so eo strict current_time
  = Ok mapped ->
  partitions_def mapped = to_def
  /\ forall w, w ∈ included_time_windows mapped ->
       exists first_window last_window tws tw,
         get_first_partition_window to_def current_time = Some first_window
         /\ get_last_partition_window to_def current_time = Some last_window
         /\ start first_window <= start w /\ end_ w <= end_ last_window
         /\ map_time_windows from_def to_def so eo
              (included_time_windows subset) = Ok tws
         /\ tw ∈ tws /\ start tw <= start w /\ end_ w <= end_ tw.
Proof.
  intros Hr Hok. rewrite _map_partitions_clipping in Hok by done.
  destruct (map_time_windows from_def to_def so eo
              (included_time_windows subset)) as [tws|e] eqn:Hm;
    simpl in Hok; [|discriminate].
  destruct (strict && _); [discriminate|]. injection Hok as <-.
  split; [done|]. simpl. intros w Hw.
  apply elem_of_filter_time_windows in Hw as (tw & Htw & Hclip).
  unfold clip_time_window in Hclip.
  destruct (get_first_partition_window to_def current_time) as [fw|];
    [|discriminate].
  destruct (get_last_partition_window to_def current_time) as [lw|];
    [|discriminate].
  destruct (_ && _); [|discriminate]. injection Hclip as <-.
  exists fw, lw, tws, tw. simpl. repeat split; try done; lia.
Qed.

Lemma map_time_window_nonempty from_def to_def so eo w tw :
  map_time_window from_def to_def so eo w = Ok (Some tw) ->
  start tw < end_ tw.
Proof.
  unfold map_time_window.
  destruct (_ || _); [|discriminate].
  lazymatch goal with
  | |- (?x ≫= _) = _ -> _ =>
      destruct x as [window_start|e]; simpl; [|discriminate]
  end.
  lazymatch goal with
  | |- (?x ≫= _) = _ -> _ =>
      destruct x as [window_end|e]; simpl; [|discriminate]
  end.
  destruct (window_start <? window_end) eqn:Hlt; [|discriminate].
  intros [= <-]. simpl. lia.
Qed.

Lemma map_time_windows_nonempty from_def to_def so eo ws tws :
  map_time_windows from_def to_def so eo ws = Ok tws ->
  Forall (fun tw => start tw < end_ tw) tws.
Proof.
  revert tws. induction ws as [|w ws IH]; intros tws; simpl.
  - intros [= <-]. constructor.
  - destruct (map_time_window from_def to_def so eo w) as [o|e] eqn:Hw;
      simpl; [|discriminate].
    destruct (map_time_windows from_def to_def so eo ws) as [tws'|e]; simpl;
      [|discriminate].
    specialize (IH tws' eq_refl).
    destruct o as [tw|]; intros [= <-]; [|done].
    constructor; [|done]. by eapply map_time_window_nonempty.
Qed.

(** X6: a strict call that goes through the clipping and succeeds returns
    the computed windows as they are, none clipped or dropped, and each of
    them is non-empty: a window whose mapped start is not before its mapped
    end was discarded before. *)
Theorem strict_result_is_unclipped from_def to_def subset (so eo : Z)
    (current_time : option datetime) mapped :
  reaches_clipping from_def to_def so eo = true ->
  _map_partitions from_def to_def subset so eo true current_time
  = Ok mapped ->
  map_time_windows from_def to_def so eo (included_time_windows subset)
  = Ok (included_time_windows mapped)
  /\ filter_time_windows (get_first_partition_window to_def current_time)
       (get_last_partition_window to_def current_time)
       (included_time_windows mapped)
     = included_time_windows mapped
  /\ Forall (fun w => start w < end_ w) (included_time_windows mapped).
Proof.
  intros Hr Hok. rewrite _map_partitions_clipping in Hok by done.
  destruct (map_time_windows from_def to_def so eo
              (included_time_windows subset)) as [tws|e] eqn:Hm;
    simpl in Hok; [|discriminate].
  case_bool_decide as Hsame; simpl in Hok; [|discriminate].
  injection Hok as <-. simpl. rewrite Hsame.
  split; [done|]. split; [by rewrite Hsame|].
  by eapply map_time_windows_nonempty.
Qed.

(** X7: the strict mode only adds a failure.  Whatever a strict call returns
    the lenient call returns too; whatever error the lenient call raises the
    strict call raises too; and when the lenient call returns, the strict
    call either returns the same or raises the error for non-existent
    partitions. *)
Theorem strict_only_adds_failure from_def to_def subset (so eo : Z)
    (current_time : option datetime) :
  let strict :=
    _map_partitions from_def to_def subset so eo true current_time in
  let lenient :=
    _map_partitions from_def to_def subset so eo false current_time in
  (forall mapped, strict = Ok mapped -> lenient = Ok mapped)
  /\ (forall e, lenient = Raise e -> strict = Raise e)
  /\ (forall mapped, lenient = Ok mapped ->
      strict = Ok mapped
      \/ exists tws, strict = Raise (DagsterInvalidInvocationError tws)).
Proof.
  intros strict lenient. subst strict lenient.
  destruct (reaches_clipping from_def to_def so eo) eqn:Hr.
  - rewrite !_map_partitions_clipping by done.
    destruct (map_time_windows from_def to_def so eo
                (included_time_windows subset)) as [tws|e]; simpl.
    + case_bool_decide as Hsame; simpl.
      * rewrite Hsame. split; [done|]. split; [discriminate|]. auto.
      * split; [discriminate|]. split; [discriminate|]. eauto.
    + split; [discriminate|]. split; [done|]. discriminate.
  - unfold reaches_clipping in Hr. unfold _map_partitions.
    destruct (_ && negb (String.eqb (cron_schedule from_def) _)).
    { split; [discriminate|]. split; [done|]. discriminate. }
    destruct (String.eqb (timezone to_def) _); simpl in *.
    + destruct (_ && (eo =? 0)); simpl in *; [|discriminate].
      split; [done|]. split; [discriminate|]. auto.
    + split; [discriminate|]. split; [done|]. discriminate.
Qed.

Lemma offsetted_loop_sign (d : D) (n : nat) (o o' : Z) (dt : datetime) :
  (o <? 0) = (o' <? 0) ->
  offsetted_loop d n o dt = offsetted_loop d n o' dt.
Proof.
  intros Hsign. revert dt. induction n as [|n IH]; intros dt; simpl; [done|].
  rewrite Hsign. destruct (o' <? 0).
  - destruct (get_prev_partition_window d dt); [apply IH|done].
  - destruct (get_next_partition_window d dt); [apply IH|done].
Qed.

Lemma offsetted_loop_add (d : D) (n m : nat) (o : Z) (dt : datetime) :
  offsetted_loop d (n + m) o dt
  = offsetted_loop d n o dt ≫= offsetted_loop d m o.
Proof.
  revert dt. induction n as [|n IH]; intros dt; simpl; [done|].
  destruct (o <? 0).
  - destruct (get_prev_partition_window d dt); [apply IH|done].
  - destruct (get_next_partition_window d dt); [apply IH|done].
Qed.

(** X8: walking composes.  For two offsets of one direction, walking
    [a + b] partitions from an instant is walking [a] partitions and then
    [b] more from where that arrived; the walk is lost as soon as either
    part runs out of partitions. *)
Theorem offsetted_datetime_composes (d : D) (dt : datetime) (a b : Z) :
  (0 <= a /\ 0 <= b) \/ (a <= 0 /\ b <= 0) ->
  _offsetted_datetime d dt (a + b)
  = _offsetted_datetime d dt a ≫= (fun dt' => _offsetted_datetime d dt' b).
Proof.
  intros Hsame. unfold _offsetted_datetime.
  assert (Habs : Z.abs_nat (a + b) = (Z.abs_nat a + Z.abs_nat b)%nat) by lia.
  rewrite Habs, offsetted_loop_add.
  destruct (Z.abs_nat a) as [|na] eqn:Ha.
  - assert (a = 0) as -> by lia. simpl. rewrite Z.add_0_l. done.
  - destruct (Z.abs_nat b) as [|nb] eqn:Hb.
    + assert (b = 0) as -> by lia. rewrite Z.add_0_r.
      destruct (offsetted_loop d (S na) a dt); done.
    + rewrite (offsetted_loop_sign d (S na) (a + b) a)
        by (destruct Hsame; destruct (a <? 0) eqn:?, (a + b <? 0) eqn:?;
            lia).
      destruct (offsetted_loop d (S na) a dt) as [dt'|]; [|done].
      apply (offsetted_loop_sign d (S nb) (a + b) b dt').
      destruct Hsame; destruct (b <? 0) eqn:?, (a + b <? 0) eqn:?; lia.
Qed.
End MappingBehaviour.

Lemma mapped_windows_within_target_witness :
  let d := daily "2020-01-01" in
  let mapped := mkSubset d 2%nat [mkTimeWindow 1656806400 1656979200] in
  reaches_clipping d d (-1) 0 = true
  /\ _map_partitions d d july_fourth_subset (-1) 0 false None = Ok mapped
  /\ (partitions_def mapped = d
      /\ forall w, w ∈ included_time_windows mapped ->
           exists first_window last_window tws tw,
             get_first_partition_window d None = Some first_window
             /\ get_last_partition_window d None = Some last_window
             /\ start first_window <= start w /\ end_ w <= end_ last_window
             /\ map_time_windows d d (-1) 0
                  (included_time_windows july_fourth_subset) = Ok tws
             /\ tw ∈ tws /\ start tw <= start w /\ end_ w <= end_ tw).
Proof.
  intros d mapped.
  assert (Hr : reaches_clipping d d (-1) 0 = true) by (vm_compute; reflexivity).
  assert (Hok : _map_partitions d d july_fourth_subset (-1) 0 false None
                = Ok mapped) by (vm_compute; reflexivity).
  split; [exact Hr|]. split; [exact Hok|].
  exact (mapped_windows_within_target d d july_fourth_subset (-1) 0 false None
           mapped Hr Hok).
Defined.

Lemma strict_result_is_unclipped_witness :
  let d := daily "2020-01-01" in
  let mapped := mkSubset d 2%nat [mkTimeWindow 1656806400 1656979200] in
  reaches_clipping d d (-1) 0 = true
  /\ _map_partitions d d july_fourth_subset (-1) 0 true None = Ok mapped
  /\ (map_time_windows d d (-1) 0 (included_time_windows july_fourth_subset)
      = Ok (included_time_windows mapped)
      /\ filter_time_windows (get_first_partition_window d None)
           (get_last_partition_window d None) (included_time_windows mapped)
         = included_time_windows mapped
      /\ Forall (fun w => start w < end_ w) (included_time_windows mapped)).
Proof.
  intros d mapped.
  assert (Hr : reaches_clipping d d (-1) 0 = true) by (vm_compute; reflexivity).
  assert (Hok : _map_partitions d d july_fourth_subset (-1) 0 true None
                = Ok mapped) by (vm_compute; reflexivity).
  split; [exact Hr|]. split; [exact Hok|].
  exact (strict_result_is_unclipped d d july_fourth_subset (-1) 0 None mapped
           Hr Hok).
Defined.

Lemma offsetted_datetime_composes_witness :
  let d := daily "2020-01-01" in
  ((0 <= -1 /\ 0 <= -2) \/ (-1 <= 0 /\ -2 <= 0))
  /\ _offsetted_datetime d 1656892800 (-1 + -2)
     = _offsetted_datetime d 1656892800 (-1)
         ≫= (fun dt' => _offsetted_datetime d dt' (-2)).
Proof.
  intros d.
  assert (Hsame : (0 <= -1 /\ 0 <= -2) \/ (-1 <= 0 /\ -2 <= 0))
    by (right; lia).
  split; [exact Hsame|].
  exact (offsetted_datetime_composes d 1656892800 (-1) (-2) Hsame).
Defined.

(** * Further properties of the hourly and daily model *)

Lemma tick_before_floor (s : ScheduleType) (ts : Z) :
  (if tick_before (period s) ts + period s >? ts
   then tick_before (period s) ts
   else tick_before (period s) ts + period s)
  = ts / period s * period s.
Proof.
  unfold tick_before, tick_ceil.
  destruct (_ >? ts) eqn:Hgt; destruct s; simpl in *;
    Z.to_euclidean_division_equations; lia.
Qed.

(** The key of an instant, a tick or not: with the end open, the key of the
    window that contains it; with the end closed, the key of the window that
    starts at the last tick strictly before it. *)
Lemma key_for_timestamp_any (d : CronPartitionsDefinition) (ts : Z) :
  key_for_timestamp d ts false
  = strftime (schedule_type d)
      (ts / period (schedule_type d) * period (schedule_type d))
  /\ key_for_timestamp d ts true
     = strftime (schedule_type d) (tick_before (period (schedule_type d)) ts).
Proof.
  unfold key_for_timestamp. simpl. split; [|done].
  rewrite <- (tick_before_floor (schedule_type d) ts).
  by destruct (_ >? ts).
Qed.

Lemma keys_in_aligned_window (d : CronPartitionsDefinition) (a : Z) (n : nat) :
  a mod period (schedule_type d) = 0 ->
  keys_in_time_window d
    (mkTimeWindow a (a + Z.of_nat n * period (schedule_type d)))
  = map (fun i => strftime (schedule_type d)
                    (a + Z.of_nat i * period (schedule_type d)))
      (seq 0 n).
Proof.
  intros Ha. unfold keys_in_time_window. cbn [start end_].
  rewrite tick_ceil_tick by done.
  replace (a + Z.of_nat n * period (schedule_type d) - a)
    with (Z.of_nat n * period (schedule_type d)) by lia.
  rewrite Z.div_mul by (pose proof (period_positive (schedule_type d)); lia).
  by rewrite Nat2Z.id.
Qed.

Section CronBehaviour.
Variable now : datetime.

Local Abbreviation ops := (cron_definition now).

(** With zero offsets a window between two ticks of the source maps to the
    window of the target ticks around it, before the clipping. *)
Lemma map_time_window_zero_offsets (from_def to_def : CronPartitionsDefinition)
    (w : TimeWindow) :
  let p := period (schedule_type to_def) in
  let lo := start w / p * p in
  let hi := tick_before p (end_ w) + p in
  0 <= lo -> hi <= calendar_end -> start w < end_ w ->
  map_time_window (H := ops) from_def to_def 0 0 w
  = Ok (Some (mkTimeWindow lo hi)).
Proof.
  intros p lo hi Hlo Hhi Hw.
  pose proof (period_positive (schedule_type to_def)) as Hp. fold p in Hp.
  assert (Hlo_tick : lo mod p = 0) by (subst lo; apply Z.mod_mul; lia).
  assert (Hhi_tick : (hi - p) mod p = 0).
  { subst hi. unfold tick_before, tick_ceil.
    replace ((end_ w + p - 1) / p * p - p + p - p)
      with (((end_ w + p - 1) / p - 1) * p) by lia.
    apply Z.mod_mul. lia. }
  assert (Hlt : lo < hi).
  { subst lo hi p. unfold tick_before, tick_ceil.
    destruct (schedule_type to_def); simpl in *;
      Z.to_euclidean_division_equations; lia. }
  assert (Hge : lo <= hi - p).
  { subst lo hi p. unfold tick_before, tick_ceil.
    destruct (schedule_type to_def); simpl in *;
      Z.to_euclidean_division_equations; lia. }
  unfold map_time_window, _offsetted_datetime. cbn [Z.abs_nat offsetted_loop].
  cbn [is_not_None orb]. unfold timestamp.
  change (get_partition_key_for_timestamp to_def)
    with (key_for_timestamp to_def).
  rewrite (proj1 (key_for_timestamp_any to_def (start w))).
  rewrite (proj2 (key_for_timestamp_any to_def (end_ w))).
  fold p. fold lo.
  unfold truthy. rewrite !strftime_nonempty.
  cbn [negb default from_option id].
  change (start_time_for_partition_key to_def)
    with (strptime (schedule_type to_def)).
  change (end_time_for_partition_key to_def)
    with (fun key => t ← strptime (schedule_type to_def) key;
                     Some (t + period (schedule_type to_def))).
  cbn beta. fold p.
  rewrite (strptime_strftime (schedule_type to_def) lo);
    [|unfold calendar_end in *; lia|done].
  replace (tick_before p (end_ w)) with (hi - p) by (subst hi; lia).
  rewrite (strptime_strftime (schedule_type to_def) (hi - p));
    [|unfold calendar_end in *; lia|done].
  cbn [mbind option_bind parsed result_bind].
  rewrite (proj2 (Z.ltb_lt _ _)) by lia.
  do 3 f_equal. lia.
Qed.

(** Clipping leaves a window between two ticks of the target alone when the
    target starts at or before it and it is complete at [current_time]. *)
Lemma clip_in_range (to_def : CronPartitionsDefinition)
    (current_time : option datetime) (a b : Z) :
  a mod period (schedule_type to_def) = 0 ->
  b mod period (schedule_type to_def) = 0 ->
  a < b -> start_date to_def <= a -> b <= default now current_time ->
  clip_time_window (first_window now to_def current_time)
    (last_window now to_def current_time) (mkTimeWindow a b)
  = Some (mkTimeWindow a b).
Proof.
  intros Ha Hb Hab Hstart Hcur.
  pose proof (period_positive (schedule_type to_def)) as Hp.
  assert (Hgap : period (schedule_type to_def) <= b - a).
  { destruct (schedule_type to_def); simpl in *;
      Z.to_euclidean_division_equations; lia. }
  destruct (first_window_before now to_def current_time a)
    as (fw & -> & Hfw & Hfw'); [done|done|lia|].
  destruct (last_window_after now to_def current_time b)
    as (lw & -> & Hlw & _ & Hlw'); [done|lia|done|].
  unfold clip_time_window. cbn [start end_].
  rewrite (proj2 (Z.leb_le _ _)) by lia.
  destruct (b >=? end_ fw) eqn:Hge; [|lia].
  cbn [andb]. f_equal. f_equal; lia.
Qed.

(** With zero offsets and two different definitions of one timezone, a
    window maps onto the target ticks around it when the target holds them
    at [current_time]. *)
Lemma _map_partitions_zero_offsets (current_time : option datetime)
    (from_def to_def : CronPartitionsDefinition) (n : nat) (w : TimeWindow)
    (strict : bool) :
  let p := period (schedule_type to_def) in
  let lo := start w / p * p in
  let hi := tick_ceil p (end_ w) in
  tz from_def = tz to_def -> from_def <> to_def ->
  start w < end_ w ->
  0 <= start_date to_def <= lo ->
  hi <= default now current_time -> hi <= calendar_end ->
  _map_partitions (H := ops) from_def to_def (mkSubset from_def n [w]) 0 0
    strict current_time
  = Ok (subset_of_windows (H := ops) to_def [mkTimeWindow lo hi])
  /\ lo <= start w /\ end_ w <= hi.
Proof.
  intros p lo hi Htz Hne Hw Hstart Hcur Hcal.
  pose proof (period_positive (schedule_type to_def)) as Hp. fold p in Hp.
  assert (Hbounds : lo <= start w /\ end_ w <= hi /\ lo < hi
                    /\ lo mod p = 0 /\ hi mod p = 0).
  { subst lo hi p. unfold tick_ceil.
    destruct (schedule_type to_def); simpl in *;
      Z.to_euclidean_division_equations; lia. }
  destruct Hbounds as (Hlo & Hhi & Hlt & Hlo_tick & Hhi_tick).
  split; [|done].
  assert (Hr : reaches_clipping (H := ops) from_def to_def 0 0 = true).
  { unfold reaches_clipping. cbn [Z.eqb negb orb andb].
    change (timezone to_def) with (tz to_def).
    change (timezone from_def) with (tz from_def).
    rewrite Htz, String.eqb_refl, bool_decide_eq_false_2 by done. done. }
  rewrite _map_partitions_clipping by done.
  cbn [included_time_windows map_time_windows].
  rewrite map_time_window_zero_offsets;
    [|fold p; fold lo; lia|fold p; unfold tick_before; fold hi; lia|done].
  cbn [mbind result_bind]. cbv zeta. fold p. fold lo.
  replace (tick_before p (end_ w) + p) with hi
    by (unfold tick_before; subst hi; lia).
  unfold filter_time_windows. cbn [omap list_omap].
  change (get_first_partition_window to_def current_time)
    with (first_window now to_def current_time).
  change (get_last_partition_window to_def current_time)
    with (last_window now to_def current_time).
  rewrite clip_in_range by (try done; lia).
  rewrite bool_decide_eq_true_2 by done. by rewrite andb_false_r.
Qed.

(** X9: with zero offsets a window maps, between any two different hourly or
    daily definitions of one timezone and in either direction, onto the run
    of target partitions that overlap it: it starts at the target tick at or
    before the window's start and ends at the target tick at or after its
    end, less than one target partition away on either side, provided the
    target holds that run at [current_time]. *)
Theorem zero_offsets_cover_window (current_time : option datetime)
    (from_def to_def : CronPartitionsDefinition) (n : nat) (w : TimeWindow) :
  let p := period (schedule_type to_def) in
  let lo := start w / p * p in
  let hi := tick_ceil p (end_ w) in
  let subset := mkSubset from_def n [w] in
  let covering := subset_of_windows (H := ops) to_def [mkTimeWindow lo hi] in
  tz from_def = tz to_def -> from_def <> to_def ->
  start w < end_ w ->
  0 <= start_date to_def <= lo ->
  hi <= default now current_time -> hi <= calendar_end ->
  get_upstream_partitions_for_partitions (H := ops) (mkMapping 0 0)
    (Some (TimeWindowSubset subset)) (TimeWindowDef to_def) current_time
  = Ok covering
  /\ get_downstream_partitions_for_partitions (H := ops) (mkMapping 0 0)
       (TimeWindowSubset subset) (Some (TimeWindowDef to_def)) current_time
     = Ok covering
  /\ start w - p < lo <= start w /\ end_ w <= hi < end_ w + p.
Proof.
  intros p lo hi subset covering Htz Hne Hw Hstart Hcur Hcal.
  destruct (_map_partitions_zero_offsets current_time from_def to_def n w true
              Htz Hne Hw Hstart Hcur Hcal) as (Hup & _ & _).
  destruct (_map_partitions_zero_offsets current_time from_def to_def n w false
              Htz Hne Hw Hstart Hcur Hcal) as (Hdown & _ & _).
  split; [exact Hup|]. split; [exact Hdown|].
  subst lo hi p. unfold tick_ceil.
  destruct (schedule_type to_def); simpl in *;
    Z.to_euclidean_division_equations; lia.
Qed.

(** X10: the two granularities contain one another.  An hourly partition
    maps upstream onto exactly the daily partition of its day, and that
    daily partition maps downstream onto exactly the 24 hourly partitions of
    the day, the hour it came from among them. *)
Theorem hour_maps_to_its_day_and_back (current_time : option datetime)
    (hourly_start daily_start : datetime) (zone : string) (t : Z) :
  let hourly_def := mkCronDef HOURLY hourly_start zone in
  let daily_def := mkCronDef DAILY daily_start zone in
  let day := t / 86400 * 86400 in
  t mod 3600 = 0 ->
  0 <= hourly_start <= day -> 0 <= daily_start <= day ->
  day + 86400 <= default now current_time -> day + 86400 <= calendar_end ->
  exists upstream_subset downstream_subset,
    get_upstream_partitions_for_partitions (H := ops) (mkMapping 0 0)
      (Some (TimeWindowSubset
               (mkSubset hourly_def 1%nat [mkTimeWindow t (t + 3600)])))
      (TimeWindowDef daily_def) current_time = Ok upstream_subset
    /\ get_partition_keys (H := ops) upstream_subset = [strftime DAILY day]
    /\ get_downstream_partitions_for_partitions (H := ops) (mkMapping 0 0)
         (TimeWindowSubset upstream_subset) (Some (TimeWindowDef hourly_def))
         current_time = Ok downstream_subset
    /\ num_partitions downstream_subset = 24%nat
    /\ get_partition_keys (H := ops) downstream_subset
       = map (fun i => strftime HOURLY (day + Z.of_nat i * 3600)) (seq 0 24)
    /\ strftime HOURLY t ∈ get_partition_keys (H := ops) downstream_subset.
Proof.
  intros hourly_def daily_def day Ht Hhourly Hdaily Hcur Hcal.
  assert (Hday : day mod 86400 = 0 /\ day mod 3600 = 0 /\ day <= t
                 /\ t + 3600 <= day + 86400).
  { subst day. Z.to_euclidean_division_equations. lia. }
  destruct Hday as (Hday & Hday' & Hle & Hlt).
  assert (Hup_lo : t / 86400 * 86400 = day) by done.
  assert (Hup_hi : tick_ceil 86400 (t + 3600) = day + 86400).
  { subst day. unfold tick_ceil. Z.to_euclidean_division_equations. lia. }
  assert (Hdown_lo : day / 3600 * 3600 = day)
    by (Z.to_euclidean_division_equations; lia).
  assert (Hdown_hi : tick_ceil 3600 (day + 86400) = day + 86400).
  { unfold tick_ceil. Z.to_euclidean_division_equations. lia. }
  destruct (_map_partitions_zero_offsets current_time hourly_def daily_def 1%nat
              (mkTimeWindow t (t + 3600)) true) as (Hup & _ & _);
    cbn [start end_ schedule_type period daily_def hourly_def tz start_date];
    rewrite ?Hup_lo, ?Hup_hi; try done; try lia.
  destruct (_map_partitions_zero_offsets current_time daily_def hourly_def 1%nat
              (mkTimeWindow day (day + 86400)) false) as (Hdown & _ & _);
    cbn [start end_ schedule_type period daily_def hourly_def tz start_date];
    rewrite ?Hdown_lo, ?Hdown_hi; try done; try lia.
  cbn [start end_ schedule_type period daily_def hourly_def] in Hup, Hdown.
  rewrite Hup_lo, Hup_hi in Hup. rewrite Hdown_lo, Hdown_hi in Hdown.
  assert (Hkeys_day :
    keys_in_time_window daily_def (mkTimeWindow day (day + 86400))
    = [strftime DAILY day]).
  { replace (day + 86400)
      with (day + Z.of_nat 1 * period (schedule_type daily_def))
      by (simpl; lia).
    rewrite keys_in_aligned_window by done. simpl.
    by rewrite Z.add_0_r. }
  assert (Hkeys_hours :
    keys_in_time_window hourly_def (mkTimeWindow day (day + 86400))
    = map (fun i => strftime HOURLY (day + Z.of_nat i * 3600)) (seq 0 24)).
  { replace (day + 86400)
      with (day + Z.of_nat 24 * period (schedule_type hourly_def))
      by (simpl; lia).
    by rewrite keys_in_aligned_window. }
  eexists _, _. split; [exact Hup|].
  split.
  { unfold get_partition_keys, subset_of_windows.
    cbn [partitions_def included_time_windows map concat].
    change (get_partition_keys_in_time_window daily_def)
      with (keys_in_time_window daily_def).
    by rewrite Hkeys_day, app_nil_r. }
  split.
  { unfold get_downstream_partitions_for_partitions, subset_of_windows.
    cbn [partitions_def start_offset end_offset Z.opp].
    unfold subset_of_windows in Hdown. exact Hdown. }
  unfold get_partition_keys, subset_of_windows.
  cbn [partitions_def included_time_windows num_partitions map concat].
  change (get_partition_keys_in_time_window hourly_def)
    with (keys_in_time_window hourly_def).
  rewrite Hkeys_hours, app_nil_r.
  split; [reflexivity|]. split; [reflexivity|].
  apply elem_of_map. exists (Z.to_nat ((t - day) / 3600)). split.
  - f_equal. rewrite Z2Nat.id by (Z.to_euclidean_division_equations; lia).
    Z.to_euclidean_division_equations. lia.
  - apply list_elem_of_In, in_seq.
    assert (0 <= (t - day) / 3600 < 24)
      by (Z.to_euclidean_division_equations; lia).
    lia.
Qed.

(** X11: between two hourly or daily definitions of one schedule and
    timezone, the upstream direction of the mapping with offsets [(so, eo)]
    takes a partition, inside what both definitions hold, to the
    [eo - so + 1] consecutive partitions from [so] partitions after it to
    [eo] partitions after it (before it, for negative offsets), and to
    nothing else. *)
Theorem offsets_select_consecutive_partitions
    (current_time : option datetime)
    (downstream_def upstream_def : CronPartitionsDefinition)
    (so eo : Z) (x : datetime) :
  let p := period (schedule_type downstream_def) in
  let partition := mkTimeWindow x (x + p) in
  schedule_type downstream_def = schedule_type upstream_def ->
  tz downstream_def = tz upstream_def ->
  interior now current_time downstream_def upstream_def so eo partition ->
  exists upstream_subset,
    get_upstream_partitions_for_partitions (H := ops) (mkMapping so eo)
      (Some (TimeWindowSubset (mkSubset downstream_def 1%nat [partition])))
      (TimeWindowDef upstream_def) current_time = Ok upstream_subset
    /\ included_time_windows upstream_subset
       = [mkTimeWindow (x + so * p) (x + (eo + 1) * p)]
    /\ get_partition_keys (H := ops) upstream_subset
       = map (fun i => strftime (schedule_type upstream_def)
                         (x + (so + Z.of_nat i) * p))
           (seq 0 (Z.to_nat (eo - so + 1)))
    /\ so <= eo.
Proof.
  intros p partition Hsched Htz Hint.
  pose proof (period_positive (schedule_type downstream_def)) as Hp.
  fold p in Hp.
  assert (Horder : so <= eo).
  { destruct Hint as (_ & _ & _ & Hshift & _).
    subst partition. cbn [start end_] in Hshift. fold p in Hshift. nia. }
  destruct (_map_partitions_interior now current_time downstream_def
              upstream_def (mkSubset downstream_def 1%nat [partition])
              so eo true Hsched Htz eq_refl)
    as (us & Hus & Hus_def & Hus_windows).
  { constructor; [done|constructor]. }
  exists us. split; [exact Hus|].
  cbn [included_time_windows map] in Hus_windows. fold p in Hus_windows.
  assert (Hwindow : shift_window p so eo partition
                    = mkTimeWindow (x + so * p) (x + (eo + 1) * p)).
  { unfold shift_window, partition. cbn [start end_]. f_equal. lia. }
  rewrite Hwindow in Hus_windows.
  split; [exact Hus_windows|]. split; [|exact Horder].
  unfold get_partition_keys. rewrite Hus_def, Hus_windows.
  cbn [map concat]. rewrite app_nil_r.
  change (get_partition_keys_in_time_window upstream_def)
    with (keys_in_time_window upstream_def).
  replace (x + (eo + 1) * p)
    with (x + so * p
          + Z.of_nat (Z.to_nat (eo - so + 1))
            * period (schedule_type upstream_def))
    by (rewrite <- Hsched; fold p; rewrite Z2Nat.id by lia; lia).
  rewrite keys_in_aligned_window.
  - apply map_ext. intros i. f_equal. rewrite <- Hsched. fold p. lia.
  - rewrite <- Hsched. apply tick_shift. by destruct Hint as (Hx & _).
Qed.

Lemma prev_window_first (d : CronPartitionsDefinition) :
  start_date d mod period (schedule_type d) = 0 ->
  start_date d + period (schedule_type d) <= now ->
  first_window now d None
  = Some (mkTimeWindow (start_date d)
            (start_date d + period (schedule_type d)))
  /\ prev_window now d (start_date d) = None.
Proof.
  intros Htick Hnow.
  pose proof (period_positive (schedule_type d)) as Hp.
  assert (Hfirst : first_window now d None
                   = Some (mkTimeWindow (start_date d)
                             (start_date d + period (schedule_type d)))).
  { unfold first_window. rewrite tick_ceil_tick by done. cbn [default
      from_option id]. by rewrite (proj2 (Z.leb_le _ _)). }
  split; [exact Hfirst|].
  unfold prev_window, tick_before. rewrite Hfirst, tick_ceil_tick by done.
  cbn [start]. by rewrite (proj2 (Z.ltb_lt _ _)) by lia.
Qed.

(** X12: a definition that depends on itself through negative offsets
    [(-n, -n)] gives its first partition no upstream partition: the strict
    upstream call returns the empty subset rather than an error, as
    [test_self_dependency] expects of ["2020-01-01"]. *)
Theorem first_partition_has_no_predecessor (current_time : option datetime)
    (d : CronPartitionsDefinition) (n : Z) :
  let p := period (schedule_type d) in
  let s := start_date d in
  s mod p = 0 -> p <= s -> s + p <= now -> s + p <= calendar_end -> 0 < n ->
  get_upstream_partitions_for_partitions (H := ops) (mkMapping (- n) (- n))
    (Some (TimeWindowSubset (mkSubset d 1%nat [mkTimeWindow s (s + p)])))
    (TimeWindowDef d) current_time
  = Ok (mkSubset d 0%nat []).
Proof.
  intros p s Htick Hs Hnow Hcal Hn.
  pose proof (period_positive (schedule_type d)) as Hp. fold p in Hp.
  destruct (prev_window_first d Htick Hnow) as [Hfirst Hprev].
  fold p in Hfirst. fold s in Hfirst, Hprev.
  assert (Hwindow : map_time_window (H := ops) d d (- n) (- n)
                      (mkTimeWindow s (s + p)) = Ok None).
  { unfold map_time_window, _offsetted_datetime. cbn [start end_].
    destruct (Z.abs_nat (- n)) as [|k] eqn:Hk; [lia|].
    cbn [offsetted_loop]. rewrite (proj2 (Z.ltb_lt _ _)) by lia.
    change (get_prev_partition_window d s) with (prev_window now d s).
    change (get_prev_partition_window d (s + p))
      with (prev_window now d (s + p)).
    rewrite Hprev.
    rewrite prev_window_tick;
      [|replace (s + p) with (s + 1 * p) by lia; by apply tick_shift
       |fold p; fold s; lia|done].
    fold p. replace (s + p - p) with s by lia. cbn [start].
    destruct k as [|k]; cbn [offsetted_loop].
    - cbn [is_not_None orb]. unfold timestamp.
      change (get_partition_key_for_timestamp d) with (key_for_timestamp d).
      rewrite (proj2 (key_for_timestamp_tick d s Htick)). fold p.
      unfold truthy at 1. cbn [negb].
      change (get_first_partition_window d None)
        with (first_window now d None).
      rewrite Hfirst. cbn [window_attr start mbind result_bind].
      unfold truthy. rewrite strftime_nonempty.
      cbn [negb default from_option id].
      change (end_time_for_partition_key d)
        with (fun key => t ← strptime (schedule_type d) key;
                         Some (t + period (schedule_type d))).
      cbn beta. fold p.
      rewrite strptime_strftime;
        [|unfold calendar_end in *; lia
         |replace (s - p) with (s + (-1) * p) by lia; by apply tick_shift].
      cbn [mbind option_bind parsed result_bind].
      rewrite (proj2 (Z.ltb_ge _ _)) by lia. done.
    - rewrite (proj2 (Z.ltb_lt _ _)) by lia.
      change (get_prev_partition_window d s) with (prev_window now d s).
      rewrite Hprev. done. }
  assert (Hr : reaches_clipping (H := ops) d d (- n) (- n) = true).
  { unfold reaches_clipping. rewrite !String.eqb_refl.
    destruct (- n =? 0) eqn:Hz; [lia|]. cbn [negb orb andb].
    by rewrite andb_false_r. }
  unfold get_upstream_partitions_for_partitions.
  cbn [partitions_def start_offset end_offset].
  rewrite _map_partitions_clipping by done.
  cbn [included_time_windows map_time_windows]. rewrite Hwindow.
  cbn [mbind result_bind]. cbv zeta.
  unfold filter_time_windows. cbn [omap list_omap].
  rewrite bool_decide_eq_true_2 by done. reflexivity.
Qed.
End CronBehaviour.

Lemma zero_offsets_cover_window_witness :
  let from_def := hourly "2020-01-01-00:00" in
  let to_def := daily "2020-01-01" in
  let w := mkTimeWindow 1656910800 1656914400 in
  let p := period (schedule_type to_def) in
  let lo := start w / p * p in
  let hi := tick_ceil p (end_ w) in
  let subset := mkSubset from_def 1%nat [w] in
  let covering :=
    subset_of_windows (H := cron_definition scenario_now) to_def
      [mkTimeWindow lo hi] in
  tz from_def = tz to_def /\ from_def <> to_def
  /\ start w < end_ w
  /\ 0 <= start_date to_def <= lo
  /\ hi <= default scenario_now None /\ hi <= calendar_end
  /\ (get_upstream_partitions_for_partitions
        (H := cron_definition scenario_now) (mkMapping 0 0)
        (Some (TimeWindowSubset subset)) (TimeWindowDef to_def) None
      = Ok covering
      /\ get_downstream_partitions_for_partitions
           (H := cron_definition scenario_now) (mkMapping 0 0)
           (TimeWindowSubset subset) (Some (TimeWindowDef to_def)) None
         = Ok covering
      /\ start w - p < lo <= start w /\ end_ w <= hi < end_ w + p).
Proof.
  intros from_def to_def w p lo hi subset covering.
  assert (H1 : tz from_def = tz to_def) by reflexivity.
  assert (H2 : from_def <> to_def) by discriminate.
  assert (H3 : start w < end_ w) by reflexivity.
  assert (H4 : 0 <= start_date to_def <= lo)
    by (split; vm_compute; congruence).
  assert (H5 : hi <= default scenario_now None) by (vm_compute; congruence).
  assert (H6 : hi <= calendar_end) by (vm_compute; congruence).
  split; [exact H1|]. split; [exact H2|]. split; [exact H3|].
  split; [exact H4|]. split; [exact H5|]. split; [exact H6|].
  exact (zero_offsets_cover_window scenario_now None from_def to_def 1%nat w
           H1 H2 H3 H4 H5 H6).
Defined.

Lemma hour_maps_to_its_day_and_back_witness :
  let t := 1656910800 in
  let hourly_def := mkCronDef HOURLY 1577836800 "UTC" in
  let daily_def := mkCronDef DAILY 1577836800 "UTC" in
  let day := t / 86400 * 86400 in
  t mod 3600 = 0
  /\ 0 <= 1577836800 <= day /\ 0 <= 1577836800 <= day
  /\ day + 86400 <= default scenario_now None
  /\ day + 86400 <= calendar_end
  /\ exists upstream_subset downstream_subset,
       get_upstream_partitions_for_partitions
         (H := cron_definition scenario_now) (mkMapping 0 0)
         (Some (TimeWindowSubset
                  (mkSubset hourly_def 1%nat [mkTimeWindow t (t + 3600)])))
         (TimeWindowDef daily_def) None = Ok upstream_subset
       /\ get_partition_keys (H := cron_definition scenario_now)
            upstream_subset = [strftime DAILY day]
       /\ get_downstream_partitions_for_partitions
            (H := cron_definition scenario_now) (mkMapping 0 0)
            (TimeWindowSubset upstream_subset)
            (Some (TimeWindowDef hourly_def)) None = Ok downstream_subset
       /\ num_partitions downstream_subset = 24%nat
       /\ get_partition_keys (H := cron_definition scenario_now)
            downstream_subset
          = map (fun i => strftime HOURLY (day + Z.of_nat i * 3600))
              (seq 0 24)
       /\ strftime HOURLY t
          ∈ get_partition_keys (H := cron_definition scenario_now)
              downstream_subset.
Proof.
  intros t hourly_def daily_def day.
  assert (H1 : t mod 3600 = 0) by reflexivity.
  assert (H2 : 0 <= 1577836800 <= day) by (split; vm_compute; congruence).
  assert (H3 : day + 86400 <= default scenario_now None)
    by (vm_compute; congruence).
  assert (H4 : day + 86400 <= calendar_end) by (vm_compute; congruence).
  split; [exact H1|]. split; [exact H2|]. split; [exact H2|].
  split; [exact H3|]. split; [exact H4|].
  exact (hour_maps_to_its_day_and_back scenario_now None 1577836800
           1577836800 "UTC" t H1 H2 H2 H3 H4).
Defined.

Lemma offsets_select_consecutive_partitions_witness :
  let d := daily "2020-01-01" in
  let x := 1656892800 in
  let p := period (schedule_type d) in
  let partition := mkTimeWindow x (x + p) in
  schedule_type d = schedule_type d
  /\ tz d = tz d
  /\ interior scenario_now None d d (-2) 1 partition
  /\ exists upstream_subset,
       get_upstream_partitions_for_partitions
         (H := cron_definition scenario_now) (mkMapping (-2) 1)
         (Some (TimeWindowSubset (mkSubset d 1%nat [partition])))
         (TimeWindowDef d) None = Ok upstream_subset
       /\ included_time_windows upstream_subset
          = [mkTimeWindow (x + -2 * p) (x + (1 + 1) * p)]
       /\ get_partition_keys (H := cron_definition scenario_now)
            upstream_subset
          = map (fun i => strftime (schedule_type d)
                            (x + (-2 + Z.of_nat i) * p))
              (seq 0 (Z.to_nat (1 - -2 + 1)))
       /\ -2 <= 1.
Proof.
  intros d x p partition.
  assert (Hint : interior scenario_now None d d (-2) 1 partition).
  { vm_compute. repeat split; congruence. }
  split; [reflexivity|]. split; [reflexivity|]. split; [exact Hint|].
  exact (offsets_select_consecutive_partitions scenario_now None d d (-2) 1 x
           eq_refl eq_refl Hint).
Defined.

Lemma first_partition_has_no_predecessor_witness :
  let d := daily "2020-01-01" in
  let p := period (schedule_type d) in
  let s := start_date d in
  s mod p = 0 /\ p <= s /\ s + p <= scenario_now /\ s + p <= calendar_end
  /\ 0 < 1
  /\ get_upstream_partitions_for_partitions
       (H := cron_definition scenario_now) (mkMapping (- 1) (- 1))
       (Some (TimeWindowSubset (mkSubset d 1%nat [mkTimeWindow s (s + p)])))
       (TimeWindowDef d) None
     = Ok (mkSubset d 0%nat []).
Proof.
  intros d p s.
  assert (H1 : s mod p = 0) by reflexivity.
  assert (H2 : p <= s) by (vm_compute; congruence).
  assert (H3 : s + p <= scenario_now) by (vm_compute; congruence).
  assert (H4 : s + p <= calendar_end) by (vm_compute; congruence).
  assert (H5 : 0 < 1) by reflexivity.
  split; [exact H1|]. split; [exact H2|]. split; [exact H3|].
  split; [exact H4|]. split; [exact H5|].
  exact (first_partition_has_no_predecessor scenario_now None d 1
           H1 H2 H3 H4 H5).
Defined.

(** ** The run store, operation by operation *)

Lemma filter_all_true {A : Type} (f : A -> bool) (l : list A) :
  (forall x, x ∈ l -> f x = true) -> List.filter f l = l.
Proof.
  induction l as [|a l IH]; intros Hall; simpl; [done|].
  rewrite (Hall a) by (apply elem_of_cons; by left).
  f_equal. apply IH. intros x Hx. apply Hall, elem_of_cons. by right.
Qed.

Lemma filter_all_false {A : Type} (f : A -> bool) (l : list A) :
  (forall x, x ∈ l -> f x = false) -> List.filter f l = [].
Proof.
  induction l as [|a l IH]; intros Hall; simpl; [done|].
  rewrite (Hall a) by (apply elem_of_cons; by left).
  apply IH. intros x Hx. apply Hall, elem_of_cons. by right.
Qed.

(** A run the store does not hold has no row in a consistent index. *)
Lemma absent_run_has_no_rows st id row :
  index_consistent st -> get_run_by_id st id = None ->
  row ∈ run_tags st -> row_run_id row <> id.
Proof.
  intros Hidx Hnone Hrow Heq.
  apply Hidx in Hrow as (r & Hr & Hid & _).
  apply get_run_by_id_None in Hnone. apply Hnone.
  rewrite <- Heq, <- Hid. by apply list_elem_of_fmap_2.
Qed.


(** X13: adding a run and deleting it again gives back the very store,
    whatever history produced it: the run and the index rows of its tags are
    removed and nothing else is.  In between the store holds one run more and
    reports every key the run is tagged with ([test_delete],
    [test_delete_with_tags]). *)
Theorem add_then_delete_restores (st st' : RunStorage) (run : DagsterRun) :
  reachable st ->
  add_run st run = Ok st' ->
  length (get_runs st' no_filter None None)
  = S (length (get_runs st no_filter None None))
  /\ (forall k, is_Some (tags run !! k) -> k ∈ get_run_tag_keys st')
  /\ delete_run st' (run_id run) = Ok st.
Proof.
  intros Hreach Hadd.
  apply reachable_invariants in Hreach as [_ Hidx].
  unfold add_run in Hadd.
  destruct (has_run st (run_id run)) eqn:Hhas; [discriminate|].
  destruct (match job_snapshot_id run with Some _ => _ | None => _ end);
    [discriminate|].
  injection Hadd as <-. apply has_run_false in Hhas.
  split; [|split].
  - unfold get_runs, get_run_records. cbn [runs].
    rewrite !length_map, !filter_all_true by (intros; reflexivity). done.
  - intros k [v Hv]. apply elem_of_get_run_tag_keys.
    exists (mkTagRow (run_id run) k v). split; [|done].
    cbn [run_tags]. apply elem_of_app. left. by apply elem_of_tag_rows.
  - unfold delete_run, get_run_by_id. cbn [runs run_tags job_snapshots clock].
    cbn [List.find List.filter]. unfold record_id at 1 2. cbn [dagster_run].
    rewrite String.eqb_refl. cbn [negb]. f_equal.
    rewrite List.filter_app.
    rewrite (filter_all_false _ (tag_rows _ _)), (filter_all_true _ (run_tags st)).
    + rewrite filter_all_true.
      { unfold record_id. cbn [dagster_run]. rewrite String.eqb_refl.
        by destruct st. }
      intros r Hr. apply negb_true_iff, String.eqb_neq. intros Heq.
      apply get_run_by_id_None in Hhas. apply Hhas. rewrite <- Heq.
      by apply list_elem_of_fmap_2.
    + intros row Hrow. apply negb_true_iff, String.eqb_neq.
      by apply (absent_run_has_no_rows st).
    + intros row Hrow. apply elem_of_tag_rows in Hrow as [-> _].
      by rewrite String.eqb_refl.
Qed.



(** Looking a run up after [update_run]: the update of the run found, when
    its id is the updated one. *)
Lemma get_run_by_id_update_run st id f id' rows snapshots time :
  (forall run, run_id (f run) = run_id run) ->
  get_run_by_id (mkStorage (update_run st id f) rows snapshots time) id'
  = option_map
      (fun r => if String.eqb (record_id r) id
                then mkRecord (f (dagster_run r)) (create_timestamp r) (clock st)
                else r)
      (get_run_by_id st id').
Proof.
  intros Hf. unfold get_run_by_id, update_run. cbn [runs].
  induction (runs st) as [|r rs IH]; [done|].
  cbn [map List.find].
  assert (Hid : record_id
            (if String.eqb (record_id r) id
             then mkRecord (f (dagster_run r)) (create_timestamp r) (clock st)
             else r) = record_id r).
  { destruct (String.eqb (record_id r) id); [|done].
    unfold record_id. cbn [dagster_run]. apply Hf. }
  rewrite Hid. destruct (String.eqb (record_id r) id'); [done|exact IH].
Qed.

(** X16: [add_run_tags] on a stored run succeeds, and on the run the last
    value wins key by key: a key of the new tags takes the new value, every
    other key keeps the value it had.  Nothing else of the run changes, nor
    does any other run ([test_add_run_tags]). *)
Theorem add_run_tags_last_write_wins (st : RunStorage) (id : string)
    (new_tags : gmap string string) (r : RunRecord) :
  get_run_by_id st id = Some r ->
  exists st' r',
    add_run_tags st id new_tags = Ok st'
    /\ get_run_by_id st' id = Some r'
    /\ (forall k, tags (dagster_run r') !! k
                  = match new_tags !! k with
                    | Some v => Some v
                    | None => tags (dagster_run r) !! k
                    end)
    /\ with_tags (dagster_run r') (tags (dagster_run r)) = dagster_run r
    /\ create_timestamp r' = create_timestamp r
    /\ (forall id', id' <> id -> get_run_by_id st' id' = get_run_by_id st id').
Proof.
  intros Hr. unfold add_run_tags. rewrite Hr.
  pose proof (get_run_by_id_Some _ _ _ Hr) as [_ Hid].
  eexists _, _. split; [reflexivity|].
  split.
  { rewrite get_run_by_id_update_run by done.
    rewrite Hr. cbn [option_map]. apply String.eqb_eq in Hid.
    rewrite Hid. reflexivity. }
  cbn [dagster_run create_timestamp with_tags tags].
  split.
  { intros k. rewrite lookup_union.
    destruct (new_tags !! k), (tags (dagster_run r) !! k); reflexivity. }
  split; [by destruct r as [[] ? ?]|].
  split; [done|].
  intros id' Hne. rewrite get_run_by_id_update_run by done.
  destruct (get_run_by_id st id') as [r1|] eqn:Hr1; [|done].
  apply get_run_by_id_Some in Hr1 as [_ Hid1]. cbn [option_map].
  assert (Hno : String.eqb (record_id r1) id = false)
    by (apply String.eqb_neq; congruence).
  by rewrite Hno.
Qed.

(** X17: tagging a run twice is tagging it once with the second tags laid
    over the first: the runs of the store are the same, and so are the rows
    of the tag index.  This is why, in [test_add_run_tags], only the last of
    the values given to a key of a run remains. *)
Theorem add_run_tags_twice (st st1 st2 : RunStorage) (id : string)
    (first second : gmap string string) :
  add_run_tags st id first = Ok st1 ->
  add_run_tags st1 id second = Ok st2 ->
  exists st12,
    add_run_tags st id (second ∪ first) = Ok st12
    /\ runs st2 = runs st12
    /\ (forall row, row ∈ run_tags st2 <-> row ∈ run_tags st12).
Proof.
  unfold add_run_tags. intros H1 H2.
  destruct (get_run_by_id st id) as [r|] eqn:Hr; [|discriminate].
  injection H1 as <-.
  rewrite get_run_by_id_update_run, Hr in H2 by done.
  cbn [option_map] in H2. injection H2 as <-.
  eexists. split; [reflexivity|]. cbn [runs run_tags clock]. split.
  - unfold update_run. cbn [runs clock]. rewrite map_map. apply map_ext.
    intros r1. destruct (String.eqb (record_id r1) id) eqn:Hid.
    + unfold record_id at 1. cbn [dagster_run with_tags run_id].
      fold (record_id r1). rewrite Hid.
      cbn [dagster_run create_timestamp with_tags job_name run_id tags status
           root_run_id parent_run_id job_snapshot_id].
      by rewrite (assoc_L (∪)).
    + by rewrite Hid.
  - intros row.
    rewrite !elem_of_app, !elem_of_filter_bool, !elem_of_app,
      !elem_of_tag_rows, !elem_of_filter_bool, lookup_union.
    rewrite !negb_true_iff, !andb_false_iff, !bool_decide_eq_false.
    rewrite String.eqb_neq.
    destruct (decide (row_run_id row = id)) as [Hrow|Hrow];
      destruct (first !! row_key row) as [v1|] eqn:Hfirst;
      destruct (second !! row_key row) as [v2|] eqn:Hsecond;
      unfold union, option_union, union_with, option_union_with;
      rewrite <- ?not_eq_None_Some; intuition congruence.
Qed.




(** A store whose runs name stored job snapshots only keeps doing so. *)
Lemma apply_snapshots_stored st op :
  (forall r s, r ∈ runs st -> job_snapshot_id (dagster_run r) = Some s ->
               s ∈ job_snapshots st) ->
  forall r s, r ∈ runs (apply st op) ->
              job_snapshot_id (dagster_run r) = Some s ->
              s ∈ job_snapshots (apply st op).
Proof.
  intros Hst r s. unfold apply.
  destruct op as [run|id0 new_tags|id0 event|id0|snapshot_id|seconds];
    cbn [step].
  - unfold add_run. destruct (has_run st (run_id run)); [apply Hst|].
    destruct (job_snapshot_id run) as [s0|] eqn:Hsnap.
    + destruct (negb (bool_decide (s0 ∈ job_snapshots st))) eqn:Hs0;
        [apply Hst|].
      cbn [runs job_snapshots]. intros Hin Hs.
      apply elem_of_cons in Hin as [->|Hin]; [|by apply (Hst r)].
      cbn [dagster_run] in Hs. rewrite Hsnap in Hs. injection Hs as <-.
      by apply negb_false_iff, bool_decide_eq_true in Hs0.
    + cbn [runs job_snapshots]. intros Hin Hs.
      apply elem_of_cons in Hin as [->|Hin]; [|by apply (Hst r)].
      cbn [dagster_run] in Hs. congruence.
  - unfold add_run_tags. destruct (get_run_by_id st id0) as [found|]; [|apply Hst].
    cbn [runs job_snapshots]. intros Hin Hs.
    apply elem_of_update_run in Hin as (old & Hold & ->).
    apply (Hst old); [done|].
    by destruct (String.eqb (record_id old) id0).
  - unfold handle_run_event. destruct (get_run_by_id st id0) as [found|]; [|apply Hst].
    cbn [runs job_snapshots]. intros Hin Hs.
    apply elem_of_update_run in Hin as (old & Hold & ->).
    apply (Hst old); [done|].
    by destruct (String.eqb (record_id old) id0).
  - unfold delete_run. destruct (get_run_by_id st id0) as [found|]; [|apply Hst].
    cbn [runs job_snapshots]. intros Hin Hs.
    apply elem_of_filter_bool in Hin as [Hin _]. by apply (Hst r).
  - cbn [add_job_snapshot runs job_snapshots]. intros Hin Hs.
    apply elem_of_union. right. by apply (Hst r).
  - cbn [advance runs job_snapshots]. apply Hst.
Qed.

(** X20: whatever history produced the store, every run it holds names a
    job snapshot the store holds too: [add_run] refuses a run whose snapshot
    is missing ([test_single_write_with_missing_snapshot]) and accepts it
    once the snapshot is there ([test_single_write_read_with_snapshot]), and
    no later operation breaks the link. *)
Theorem stored_runs_name_stored_snapshots (st : RunStorage) (r : RunRecord)
    (s : string) :
  reachable st ->
  r ∈ runs st ->
  job_snapshot_id (dagster_run r) = Some s ->
  s ∈ job_snapshots st.
Proof.
  intros [ops <-]. revert r s.
  apply (replay_invariant
           (fun st => forall r s, r ∈ runs st ->
                        job_snapshot_id (dagster_run r) = Some s ->
                        s ∈ job_snapshots st)).
  - intros st op Hst. by apply apply_snapshots_stored.
  - intros r s Hin. cbn [empty_storage runs] in Hin.
    by apply elem_of_nil in Hin.
Qed.

Lemma add_then_delete_restores_witness :
  let st := started_storage in
  let run :=
    build_run "other" "some_pipeline" {[ "other" := "other" ]} NOT_STARTED
      None None in
  let st' := apply st (AddRun run) in
  reachable st /\ add_run st run = Ok st'
  /\ (length (get_runs st' no_filter None None)
      = S (length (get_runs st no_filter None None))
      /\ (forall k, is_Some (tags run !! k) -> k ∈ get_run_tag_keys st')
      /\ delete_run st' (run_id run) = Ok st).
Proof.
  intros st run st'.
  assert (Hreach : reachable st) by (eexists; reflexivity).
  assert (Hadd : add_run st run = Ok st') by (vm_compute; reflexivity).
  split; [exact Hreach|]. split; [exact Hadd|].
  exact (add_then_delete_restores st st' run Hreach Hadd).
Defined.



Lemma add_run_tags_last_write_wins_witness :
  let st := started_storage in
  let new_tags : gmap string string := {[ "tag1" := "val1" ]} in
  let r :=
    mkRecord (build_run "run" "pipeline_name" ∅ STARTED None None) 0 0 in
  get_run_by_id st "run" = Some r
  /\ exists st' r',
       add_run_tags st "run" new_tags = Ok st'
       /\ get_run_by_id st' "run" = Some r'
       /\ (forall k, tags (dagster_run r') !! k
                     = match new_tags !! k with
                       | Some v => Some v
                       | None => tags (dagster_run r) !! k
                       end)
       /\ with_tags (dagster_run r') (tags (dagster_run r)) = dagster_run r
       /\ create_timestamp r' = create_timestamp r
       /\ (forall id', id' <> "run" ->
             get_run_by_id st' id' = get_run_by_id st id').
Proof.
  intros st new_tags r.
  assert (Hr : get_run_by_id st "run" = Some r) by (vm_compute; reflexivity).
  split; [exact Hr|].
  exact (add_run_tags_last_write_wins st "run" new_tags r Hr).
Defined.

Lemma add_run_tags_twice_witness :
  let st := started_storage in
  let first : gmap string string := {[ "tag1" := "val1"; "tag2" := "val2" ]} in
  let second : gmap string string := {[ "tag1" := "val3" ]} in
  let st1 := apply st (AddRunTags "run" first) in
  let st2 := apply st1 (AddRunTags "run" second) in
  add_run_tags st "run" first = Ok st1
  /\ add_run_tags st1 "run" second = Ok st2
  /\ exists st12,
       add_run_tags st "run" (second ∪ first) = Ok st12
       /\ runs st2 = runs st12
       /\ (forall row, row ∈ run_tags st2 <-> row ∈ run_tags st12).
Proof.
  intros st first second st1 st2.
  assert (H1 : add_run_tags st "run" first = Ok st1)
    by (vm_compute; reflexivity).
  assert (H2 : add_run_tags st1 "run" second = Ok st2)
    by (vm_compute; reflexivity).
  split; [exact H1|]. split; [exact H2|].
  exact (add_run_tags_twice st st1 st2 "run" first second H1 H2).
Defined.



Lemma stored_runs_name_stored_snapshots_witness :
  let run :=
    mkRun "some_pipeline" "lkasjdflkjasdf" ∅ NOT_STARTED None None
      (Some "snapshot") in
  let st := replay empty_storage [AddJobSnapshot "snapshot"; AddRun run] in
  let r := mkRecord run 0 0 in
  reachable st /\ r ∈ runs st
  /\ job_snapshot_id (dagster_run r) = Some "snapshot"
  /\ "snapshot" ∈ job_snapshots st.
Proof.
  intros run st r.
  assert (Hreach : reachable st) by (eexists; reflexivity).
  assert (Hruns : runs st = [r]) by (vm_compute; reflexivity).
  assert (Hr : r ∈ runs st) by (rewrite Hruns; apply elem_of_cons; by left).
  split; [exact Hreach|]. split; [exact Hr|]. split; [reflexivity|].
  exact (stored_runs_name_stored_snapshots st r "snapshot" Hreach Hr eq_refl).
Defined.
